(** * Paragraph block tool for Editor.js: a shallow embedding

    The repository holds two near-duplicate classes, [ParagraphEx]
    (src/index.js) and [Paragraph] (a second variant of the same file, which
    differs in the settings panel).  Both
    are glue around a [contenteditable] DIV: the block's text lives in the
    element's [innerHTML], the alignment in the private [_data] object.

    The embedding follows the classes method by method.  JavaScript values
    are a small tagged union, strings are sequences of UTF-16 code units,
    the mutable instance is a record threaded through every method, and the
    browser (HTML parsing and serialisation, the global [name] binding, the
    imported icon strings) is an interface, [Runtime]. *)

From Stdlib Require Import List NArith Bool String Ascii Arith Lia.
Import ListNotations.

Set Implicit Arguments.

Local Open Scope N_scope.
Local Open Scope list_scope.

(** ** JavaScript strings and values *)

(** A JavaScript string: its UTF-16 code units. *)
Definition jsstring : Type := list N.

(** A string literal of the source (ASCII only). *)
Definition lit (s : string) : jsstring :=
  List.map N_of_ascii (list_ascii_of_string s).

(** [a === b] on two strings. *)
Fixpoint str_eqb (a b : jsstring) : bool :=
  match a, b with
  | [], [] => true
  | x :: a', y :: b' => N.eqb x y && str_eqb a' b'
  | _, _ => false
  end.

(** ECMAScript [WhiteSpace] and [LineTerminator] code points, the characters
    [String.prototype.trim] removes: TAB, LF, VT, FF, CR, SP, NBSP, U+1680,
    U+2000..U+200A, U+2028, U+2029, U+202F, U+205F, U+3000 and U+FEFF. *)
Definition is_white_space (c : N) : bool :=
  existsb (N.eqb c)
    [9; 10; 11; 12; 13; 32; 160; 5760; 8232; 8233; 8239; 8287; 12288; 65279]
  || ((8192 <=? c) && (c <=? 8202)).

Fixpoint trimStart (s : jsstring) : jsstring :=
  match s with
  | [] => []
  | c :: r => if is_white_space c then trimStart r else s
  end.

Definition trimEnd (s : jsstring) : jsstring := rev (trimStart (rev s)).

(** [s.trim()] *)
Definition trim (s : jsstring) : jsstring := trimEnd (trimStart s).

(** The values a property of the block's data or configuration holds.  A
    missing property reads as [JUndefined].  Numbers and nested objects are
    outside the model. *)
Inductive jsval : Type :=
| JUndefined
| JNull
| JBool (b : bool)
| JStr (s : jsstring).

(** [ToBoolean] *)
Definition truthy (v : jsval) : bool :=
  match v with
  | JUndefined | JNull => false
  | JBool b => b
  | JStr s => negb (str_eqb s [])
  end.

(** [ToString] *)
Definition to_jsstring (v : jsval) : jsstring :=
  match v with
  | JUndefined => lit "undefined"
  | JNull => lit "null"
  | JBool true => lit "true"
  | JBool false => lit "false"
  | JStr s => s
  end.

(** [a || b] *)
Definition js_or (a b : jsval) : jsval := if truthy a then a else b.

(** [a === b] *)
Definition strict_eq (a b : jsval) : bool :=
  match a, b with
  | JUndefined, JUndefined => true
  | JNull, JNull => true
  | JBool x, JBool y => Bool.eqb x y
  | JStr x, JStr y => str_eqb x y
  | _, _ => false
  end.

(** [a + b] when one of the operands is a string: the concatenation of the
    two converted to strings. *)
Definition js_plus (a b : jsval) : jsval := JStr (to_jsstring a ++ to_jsstring b).

(** An exception thrown by a method. *)
Inductive js_error : Type := TypeError | ReferenceError.

(** How a call completes. *)
Inductive completion (A : Type) : Type :=
| Normal (a : A)
| Throw (e : js_error).

Arguments Normal {A} a.
Arguments Throw {A} e.

(** ** The browser and the host editor *)

(** What the classes take from their surroundings.

    - [html_serialize s] is what [el.innerHTML] reads after [el.innerHTML = s]
      (the HTML fragment parser followed by the serialiser), and
      [html_text s] what [el.textContent] reads then.  Empty markup gives an
      element with no children, whose serialisation is empty.
    - [window_name] is the value of the free identifier [name], which
      [ParagraphEx.setAlignment] reads: the global [window.name] in a browser,
      [None] where the identifier does not resolve.
    - the icons are the strings imported from [@codexteam/icons]. *)
Class Runtime : Type := {
  html_serialize : jsstring -> jsstring;
  html_text : jsstring -> jsstring;
  html_serialize_empty : html_serialize [] = [];
  window_name : option jsstring;
  IconAlignLeft : jsstring;
  IconAlignCenter : jsstring;
  IconAlignRight : jsstring;
  IconAlignJustify : jsstring;
  IconText : jsstring
}.

(** A DOM element, as far as the classes read and write it.  [classList] is a
    [DOMTokenList]: an ordered set of class names.  The [DOMException]s it
    raises on an empty token or a token with white space are outside the
    model. *)
Record Element : Type := {
  innerHTML : jsstring;
  textContent : jsstring;
  classList : list jsstring;
  contentEditable : bool;
  dataset_placeholder : option jsstring;
  keyup_listener : bool
}.

(** [document.createElement('DIV')] *)
Definition createElement : Element :=
  {| innerHTML := []; textContent := []; classList := [];
     contentEditable := false; dataset_placeholder := None;
     keyup_listener := false |}.

Definition with_classList (cl : list jsstring) (el : Element) : Element :=
  {| innerHTML := innerHTML el; textContent := textContent el; classList := cl;
     contentEditable := contentEditable el;
     dataset_placeholder := dataset_placeholder el;
     keyup_listener := keyup_listener el |}.

(** [el.innerHTML = s] *)
Definition set_innerHTML `{Runtime} (s : jsstring) (el : Element) : Element :=
  {| innerHTML := html_serialize s; textContent := html_text s;
     classList := classList el; contentEditable := contentEditable el;
     dataset_placeholder := dataset_placeholder el;
     keyup_listener := keyup_listener el |}.

(** [classList.contains(token)] *)
Definition contains (token : jsstring) (cl : list jsstring) : bool :=
  existsb (str_eqb token) cl.

Definition token_add (token : jsstring) (cl : list jsstring) : list jsstring :=
  if contains token cl then cl else cl ++ [token].

Definition token_remove (token : jsstring) (cl : list jsstring) : list jsstring :=
  filter (fun t => negb (str_eqb token t)) cl.

(** [el.classList.add(t1, ..., tn)] *)
Definition classList_add (tokens : list jsstring) (el : Element) : Element :=
  with_classList (fold_left (fun cl t => token_add t cl) tokens (classList el)) el.

(** [el.classList.toggle(token, force)] *)
Definition classList_toggle (token : jsstring) (force : bool) (el : Element) : Element :=
  with_classList
    (if force then token_add token (classList el)
     else token_remove token (classList el)) el.

(** The host's [api] object: the two style names and [api.i18n.t]. *)
Record Api : Type := {
  styles_block : jsstring;
  styles_settingsButtonActive : jsstring;
  i18n_t : jsval -> jsstring
}.

(** The tool's [config]. *)
Record ParagraphConfig : Type := {
  placeholder : jsval;
  preserveBlank : jsval;
  defaultAlignment : jsval
}.

(** The tool's data object: [{text, alignment}]. *)
Record ParagraphData : Type := {
  text : jsval;
  alignment : jsval
}.

(** The host-dependent part of [this._CSS]; the [alignment] table is the
    constant [CSS_alignment]. *)
Record CSS : Type := {
  css_block : jsstring;
  css_wrapper : jsstring;
  css_settingsButtonActive : jsstring
}.

(** [this._CSS.alignment[key]], over the table's own keys. *)
Definition CSS_alignment (key : jsval) : jsval :=
  let k := to_jsstring key in
  if str_eqb k (lit "left") then JStr (lit "ce-paragraph--left")
  else if str_eqb k (lit "center") then JStr (lit "ce-paragraph--center")
  else if str_eqb k (lit "right") then JStr (lit "ce-paragraph--right")
  else if str_eqb k (lit "justify") then JStr (lit "ce-paragraph--justify")
  else JUndefined.

(** An instance of either class.  [_tunesButtons] is a constant list in both
    and stays outside the record. *)
Record Block : Type := {
  api : Api;
  config : ParagraphConfig;
  readOnly : jsval;
  _CSS : CSS;
  _placeholder : jsval;
  _data : ParagraphData;
  _element : Element;
  _preserveBlank : jsval
}.

Definition with_data (d : ParagraphData) (b : Block) : Block :=
  {| api := api b; config := config b; readOnly := readOnly b; _CSS := _CSS b;
     _placeholder := _placeholder b; _data := d; _element := _element b;
     _preserveBlank := _preserveBlank b |}.

Definition with_element (el : Element) (b : Block) : Block :=
  {| api := api b; config := config b; readOnly := readOnly b; _CSS := _CSS b;
     _placeholder := _placeholder b; _data := _data b; _element := el;
     _preserveBlank := _preserveBlank b |}.

(** The constructor's argument. *)
Record Params : Type := {
  p_data : ParagraphData;
  p_config : ParagraphConfig;
  p_api : Api;
  p_readOnly : jsval
}.

(** A [KeyboardEvent], by its [code]. *)
Record KeyboardEvent : Type := { code : jsstring }.

(** A paste event, by [event.detail.data]: the pasted element's [innerHTML]
    and [style.textAlign] (the empty string when the style is not set). *)
Record PasteEvent : Type := {
  pasted_innerHTML : jsstring;
  pasted_textAlign : jsstring
}.

(** ** [ParagraphEx] (src/index.js) *)

Module ParagraphEx.
Section Methods.
Context {R : Runtime}.

Definition DEFAULT_PLACEHOLDER : jsstring := [].

Definition DEFAULT_ALIGNMENT : jsstring := lit "left".

(** An entry of [this._tunesButtons]. *)
Record Tune : Type := { title : jsstring; value : jsstring; icon : jsstring }.

Definition _tunesButtons : list Tune :=
  [ {| title := lit "Align Left"; value := lit "left"; icon := IconAlignLeft |};
    {| title := lit "Align Center"; value := lit "center"; icon := IconAlignCenter |};
    {| title := lit "Align Right"; value := lit "right"; icon := IconAlignRight |};
    {| title := lit "Justify"; value := lit "justify"; icon := IconAlignJustify |} ].

(** [onKeyUp(e)] *)
Definition onKeyUp (e : KeyboardEvent) (b : Block) : Block :=
  if negb (str_eqb (code e) (lit "Backspace")) && negb (str_eqb (code e) (lit "Delete"))
  then b
  else if str_eqb (textContent (_element b)) []
       then with_element (set_innerHTML [] (_element b)) b
       else b.

(** [drawView()], on the fields of [this] it reads; it runs inside the
    constructor, before [_element] and [_preserveBlank] exist. *)
Definition drawView (a : Api) (css : CSS) (d : ParagraphData)
    (ph : jsval) (ro : jsval) : Element :=
  let div := createElement in
  let div :=
    classList_add
      [css_wrapper css; css_block css; to_jsstring (CSS_alignment (alignment d))]
      div in
  let div :=
    {| innerHTML := innerHTML div; textContent := textContent div;
       classList := classList div; contentEditable := false;
       dataset_placeholder := Some (i18n_t a ph);
       keyup_listener := keyup_listener div |} in
  if negb (truthy ro)
  then {| innerHTML := innerHTML div; textContent := textContent div;
          classList := classList div; contentEditable := true;
          dataset_placeholder := dataset_placeholder div;
          keyup_listener := true |}
  else div.

(** [render()] *)
Definition render (b : Block) : Element := _element b.

(** [get data()]: copies the element's markup into [_data.text], then
    returns [_data]. *)
Definition get_data (b : Block) : Block * ParagraphData :=
  let d := {| text := JStr (innerHTML (_element b)); alignment := alignment (_data b) |} in
  (with_data d b, d).

(** [set data(data)], for an object [data] (objects are truthy, so
    [data || {}] is [data]). *)
Definition set_data (d : ParagraphData) (b : Block) : Block :=
  let b1 := with_data d b in
  with_element
    (set_innerHTML (to_jsstring (js_or (text (_data b1)) (JStr []))) (_element b1)) b1.

(** [constructor({data, config, api, readOnly})] *)
Definition constructor (p : Params) : Block :=
  let css :=
    {| css_block := styles_block (p_api p);
       css_wrapper := lit "ce-paragraph";
       css_settingsButtonActive := styles_settingsButtonActive (p_api p) |} in
  let ph :=
    if truthy (placeholder (p_config p)) then placeholder (p_config p)
    else JStr DEFAULT_PLACEHOLDER in
  let d0 :=
    {| text := js_or (text (p_data p)) (JStr []);
       alignment :=
         js_or (js_or (alignment (p_data p)) (defaultAlignment (p_config p)))
               (JStr DEFAULT_ALIGNMENT) |} in
  let el := drawView (p_api p) css d0 ph (p_readOnly p) in
  let pb :=
    if negb (strict_eq (preserveBlank (p_config p)) JUndefined)
    then preserveBlank (p_config p)
    else JBool false in
  set_data (p_data p)
    {| api := p_api p; config := p_config p; readOnly := p_readOnly p;
       _CSS := css; _placeholder := ph; _data := d0; _element := el;
       _preserveBlank := pb |}.

(** [merge(data)]: the object literal reads [this.data] twice ([this.data.text]
    is a string, so [+] concatenates), then the setter runs. *)
Definition merge (data : ParagraphData) (b : Block) : Block :=
  let '(b1, d1) := get_data b in
  let t := js_plus (text d1) (text data) in
  let '(b2, d2) := get_data b1 in
  set_data {| text := t; alignment := alignment d2 |} b2.

(** [validate(savedData)]: [savedData.text.trim()] throws unless the text is
    a string. *)
Definition validate (savedData : ParagraphData) (b : Block) : completion bool :=
  match text savedData with
  | JStr s => Normal (negb (str_eqb (trim s) [] && negb (truthy (_preserveBlank b))))
  | _ => Throw TypeError
  end.

(** [save(toolsContent)] *)
Definition save (toolsContent : Element) (b : Block) : Block * ParagraphData :=
  let t := JStr (innerHTML toolsContent) in
  let '(b1, d1) := get_data b in
  (b1, {| text := t; alignment := alignment d1 |}).

(** [onPaste(event)] *)
Definition onPaste (event : PasteEvent) (b : Block) : Block :=
  set_data
    {| text := JStr (pasted_innerHTML event);
       alignment :=
         js_or (js_or (JStr (pasted_textAlign event)) (defaultAlignment (config b)))
               (JStr DEFAULT_ALIGNMENT) |} b.

(** [setAlignment(alignment)]: the data is stored first; the class toggle
    then reads the free identifier [name]. *)
Definition setAlignment (a : jsval) (b : Block) : Block * completion unit :=
  let '(b1, d1) := get_data b in
  let b2 := set_data {| text := text d1; alignment := a |} b1 in
  match window_name with
  | None => (b2, Throw ReferenceError)
  | Some name =>
      let token := to_jsstring (CSS_alignment (JStr name)) in
      let '(b3, d3) := get_data b2 in
      (with_element
         (classList_toggle token (strict_eq (JStr name) (alignment d3)) (_element b3)) b3,
       Normal tt)
  end.

(** [get currentAlignment()]: the tune found, or the string
    [DEFAULT_ALIGNMENT]. *)
Definition currentAlignment (b : Block) : Tune + jsstring :=
  match find (fun item => strict_eq (JStr (value item)) (alignment (_data b))) _tunesButtons with
  | Some t => inl t
  | None => inr DEFAULT_ALIGNMENT
  end.

(** [this.currentAlignment.value]: a string has no [value] property. *)
Definition currentAlignment_value (b : Block) : jsval :=
  match currentAlignment b with
  | inl t => JStr (value t)
  | inr _ => JUndefined
  end.

(** An item of the menu [renderSettings()] returns. *)
Record MenuItem : Type := {
  item_icon : jsstring;
  label : jsstring;
  onActivate : Block -> Block * completion unit;
  closeOnActivate : bool;
  isActive : bool
}.

(** [renderSettings()] *)
Definition renderSettings (b : Block) : list MenuItem :=
  List.map
    (fun tune =>
       {| item_icon := icon tune;
          label := i18n_t (api b) (JStr (title tune));
          onActivate := setAlignment (JStr (value tune));
          closeOnActivate := true;
          isActive := strict_eq (currentAlignment_value b) (JStr (value tune)) |})
    _tunesButtons.

End Methods.
End ParagraphEx.

(** ** [Paragraph] (the second variant of the class) *)

Module Paragraph.
Section Methods.
Context {R : Runtime}.

Definition DEFAULT_PLACEHOLDER : jsstring := [].

(** [static get ALIGNMENTS()] *)
Record Alignments : Type := {
  left : jsstring; center : jsstring; right : jsstring; justify : jsstring
}.

Definition ALIGNMENTS : Alignments :=
  {| left := lit "left"; center := lit "center";
     right := lit "right"; justify := lit "justify" |}.

Definition DEFAULT_ALIGNMENT : jsstring := left ALIGNMENTS.

(** An entry of [this._tunesButtons]. *)
Record Tune : Type := { name : jsstring; icon : jsstring }.

Definition _tunesButtons : list Tune :=
  [ {| name := lit "left"; icon := IconAlignLeft |};
    {| name := lit "center"; icon := IconAlignCenter |};
    {| name := lit "right"; icon := IconAlignRight |};
    {| name := lit "justify"; icon := IconAlignJustify |} ].

(** [onKeyUp(e)] *)
Definition onKeyUp (e : KeyboardEvent) (b : Block) : Block :=
  if negb (str_eqb (code e) (lit "Backspace")) && negb (str_eqb (code e) (lit "Delete"))
  then b
  else if str_eqb (textContent (_element b)) []
       then with_element (set_innerHTML [] (_element b)) b
       else b.

(** [drawView()], on the fields of [this] it reads. *)
Definition drawView (a : Api) (css : CSS) (d : ParagraphData)
    (ph : jsval) (ro : jsval) : Element :=
  let div := createElement in
  let div :=
    classList_add
      [css_wrapper css; css_block css; to_jsstring (CSS_alignment (alignment d))]
      div in
  let div :=
    {| innerHTML := innerHTML div; textContent := textContent div;
       classList := classList div; contentEditable := false;
       dataset_placeholder := Some (i18n_t a ph);
       keyup_listener := keyup_listener div |} in
  if negb (truthy ro)
  then {| innerHTML := innerHTML div; textContent := textContent div;
          classList := classList div; contentEditable := true;
          dataset_placeholder := dataset_placeholder div;
          keyup_listener := true |}
  else div.

(** [render()] *)
Definition render (b : Block) : Element := _element b.

(** [get data()] *)
Definition get_data (b : Block) : Block * ParagraphData :=
  let d := {| text := JStr (innerHTML (_element b)); alignment := alignment (_data b) |} in
  (with_data d b, d).

(** [set data(data)], for an object [data]. *)
Definition set_data (d : ParagraphData) (b : Block) : Block :=
  let b1 := with_data d b in
  with_element
    (set_innerHTML (to_jsstring (js_or (text (_data b1)) (JStr []))) (_element b1)) b1.

(** [constructor({data, config, api, readOnly})] *)
Definition constructor (p : Params) : Block :=
  let css :=
    {| css_block := styles_block (p_api p);
       css_wrapper := lit "ce-paragraph";
       css_settingsButtonActive := styles_settingsButtonActive (p_api p) |} in
  let ph :=
    if truthy (placeholder (p_config p)) then placeholder (p_config p)
    else JStr DEFAULT_PLACEHOLDER in
  let d0 :=
    {| text := js_or (text (p_data p)) (JStr []);
       alignment :=
         js_or (js_or (alignment (p_data p)) (defaultAlignment (p_config p)))
               (JStr DEFAULT_ALIGNMENT) |} in
  let el := drawView (p_api p) css d0 ph (p_readOnly p) in
  let pb :=
    if negb (strict_eq (preserveBlank (p_config p)) JUndefined)
    then preserveBlank (p_config p)
    else JBool false in
  set_data (p_data p)
    {| api := p_api p; config := p_config p; readOnly := p_readOnly p;
       _CSS := css; _placeholder := ph; _data := d0; _element := el;
       _preserveBlank := pb |}.

(** [merge(data)] *)
Definition merge (data : ParagraphData) (b : Block) : Block :=
  let '(b1, d1) := get_data b in
  let t := js_plus (text d1) (text data) in
  let '(b2, d2) := get_data b1 in
  set_data {| text := t; alignment := alignment d2 |} b2.

(** [validate(savedData)] *)
Definition validate (savedData : ParagraphData) (b : Block) : completion bool :=
  match text savedData with
  | JStr s => Normal (negb (str_eqb (trim s) [] && negb (truthy (_preserveBlank b))))
  | _ => Throw TypeError
  end.

(** [save(toolsContent)] *)
Definition save (toolsContent : Element) (b : Block) : Block * ParagraphData :=
  let t := JStr (innerHTML toolsContent) in
  let '(b1, d1) := get_data b in
  (b1, {| text := t; alignment := alignment d1 |}).

(** [onPaste(event)] *)
Definition onPaste (event : PasteEvent) (b : Block) : Block :=
  set_data
    {| text := JStr (pasted_innerHTML event);
       alignment :=
         js_or (js_or (JStr (pasted_textAlign event)) (defaultAlignment (config b)))
               (JStr DEFAULT_ALIGNMENT) |} b.

(** [_toggleTune(tune)]: [this.data.alignment = v] writes into the object
    the getter returns, which is [_data]. *)
Definition _toggleTune (tune : jsstring) (b : Block) : Block :=
  let '(b1, d1) := get_data b in
  if strict_eq (alignment d1) (JStr tune)
  then
    let '(b2, d2) := get_data b1 in
    with_data {| text := text d2; alignment := defaultAlignment (config b2) |} b2
  else
    let '(b2, d2) := get_data b1 in
    with_data {| text := text d2; alignment := JStr tune |} b2.

(** The body of [renderSettings]'s [map] callback: one button. *)
Definition render_button (tune : Tune) (b : Block) : Block * Element :=
  let button := createElement in
  let button := classList_add [lit "cdx-settings-button"] button in
  let button := set_innerHTML (icon tune) button in
  let '(b1, d1) := get_data b in
  let button :=
    classList_toggle (css_settingsButtonActive (_CSS b1))
      (strict_eq (JStr (name tune))
         (js_or (alignment d1) (defaultAlignment (config b1))))
      button in
  (b1, button).

Fixpoint render_buttons (tunes : list Tune) (b : Block) : Block * list Element :=
  match tunes with
  | [] => (b, [])
  | tune :: rest =>
      let '(b1, button) := render_button tune b in
      let '(b2, buttons) := render_buttons rest b1 in
      (b2, button :: buttons)
  end.

(** [renderSettings()]: the buttons appended to the wrapper, in order. *)
Definition renderSettings (b : Block) : Block * list Element :=
  render_buttons _tunesButtons b.

(** The inner [elements.forEach((el, i) => ...)] of a click listener.
    [elements] is the array [map] made from [_tunesButtons], so the two lists
    have the same length. *)
Fixpoint refresh (elements : list Element) (tunes : list Tune) (b : Block)
  : Block * list Element :=
  match elements, tunes with
  | el :: elements', tune :: tunes' =>
      let '(b1, d1) := get_data b in
      let el' :=
        classList_toggle (css_settingsButtonActive (_CSS b1))
          (strict_eq (JStr (name tune)) (alignment d1)) el in
      let '(b2, d2) := get_data b1 in
      let b3 :=
        with_element
          (classList_toggle (to_jsstring (CSS_alignment (JStr (name tune))))
             (strict_eq (JStr (name tune)) (alignment d2)) (_element b2)) b2 in
      let '(b4, rest) := refresh elements' tunes' b3 in
      (b4, el' :: rest)
  | _, _ => (b, elements)
  end.

(** The click listener of the button at [index]. *)
Definition click (index : nat) (elements : list Element) (b : Block)
  : Block * list Element :=
  match nth_error _tunesButtons index with
  | Some tune => refresh elements _tunesButtons (_toggleTune (name tune) b)
  | None => (b, elements)
  end.

End Methods.
End Paragraph.

(** ** Observations the properties are stated with *)

(** The four alignment values. *)
Definition alignment_values : list jsstring :=
  [lit "left"; lit "center"; lit "right"; lit "justify"].

(** [v] is one of the four alignment values. *)
Definition is_alignment (v : jsval) : bool :=
  existsb (fun a => strict_eq v (JStr a)) alignment_values.

(** [v] is a string ([typeof v === 'string']). *)
Definition is_string (v : jsval) : bool :=
  match v with JStr _ => true | _ => false end.

(** The alignment modifier classes present on an element. *)
Definition alignment_classes (el : Element) : list jsstring :=
  filter (fun c => contains c (classList el))
    (List.map (fun a => to_jsstring (CSS_alignment (JStr a))) alignment_values).

(** The buttons of a settings panel that carry the active class. *)
Definition active_buttons (css : CSS) (elements : list Element) : list Element :=
  filter (fun el => contains (css_settingsButtonActive css) (classList el)) elements.

(** For each button of a panel, in order: does it carry the active class? *)
Definition button_marks (css : CSS) (elements : list Element) : list bool :=
  List.map (fun el => contains (css_settingsButtonActive css) (classList el)) elements.

(** For each of the four alignment values, in order: is its modifier class
    on the element? *)
Definition class_marks (el : Element) : list bool :=
  List.map (fun a => contains (to_jsstring (CSS_alignment (JStr a))) (classList el))
    alignment_values.

(** For each of the four alignment values, in order: is it the value [v]? *)
Definition alignment_marks (v : jsval) : list bool :=
  List.map (fun a => strict_eq (JStr a) v) alignment_values.

(** A browser for running the model on examples: markup is kept as written,
    the text content drops everything between [<] and [>]. *)
Fixpoint strip_tags (in_tag : bool) (s : jsstring) : jsstring :=
  match s with
  | [] => []
  | c :: r =>
      if N.eqb c 60 then strip_tags true r
      else if N.eqb c 62 then (if in_tag then strip_tags false r else c :: strip_tags false r)
      else if in_tag then strip_tags true r
      else c :: strip_tags false r
  end.

Definition example_runtime (wname : option jsstring) : Runtime :=
  {| html_serialize := fun s => s;
     html_text := strip_tags false;
     html_serialize_empty := eq_refl;
     window_name := wname;
     IconAlignLeft := lit "<svg>l</svg>";
     IconAlignCenter := lit "<svg>c</svg>";
     IconAlignRight := lit "<svg>r</svg>";
     IconAlignJustify := lit "<svg>j</svg>";
     IconText := lit "<svg>t</svg>" |}.

Definition example_api : Api :=
  {| styles_block := lit "cdx-block";
     styles_settingsButtonActive := lit "cdx-settings-button--active";
     i18n_t := to_jsstring |}.

(** [config = {}] *)
Definition empty_config : ParagraphConfig :=
  {| placeholder := JUndefined; preserveBlank := JUndefined;
     defaultAlignment := JUndefined |}.

(** [data = {}] *)
Definition empty_data : ParagraphData :=
  {| text := JUndefined; alignment := JUndefined |}.

(** The operations of a [ParagraphEx] block after its construction. *)
Inductive Operation : Type :=
| OpMerge (data : ParagraphData)
| OpPaste (event : PasteEvent)
| OpSetAlignment (a : jsval)
| OpSetData (data : ParagraphData)
| OpKeyUp (e : KeyboardEvent)
| OpSave.

Definition perform `{Runtime} (o : Operation) (b : Block) : Block :=
  match o with
  | OpMerge data => ParagraphEx.merge data b
  | OpPaste event => ParagraphEx.onPaste event b
  | OpSetAlignment a => fst (ParagraphEx.setAlignment a b)
  | OpSetData data => ParagraphEx.set_data data b
  | OpKeyUp e => ParagraphEx.onKeyUp e b
  | OpSave => fst (ParagraphEx.save (ParagraphEx.render b) b)
  end.

Definition perform_all `{Runtime} (ops : list Operation) (b : Block) : Block :=
  fold_left (fun b o => perform o b) ops b.

(** The alignment an operation brings, if any, is one of the four values:
    the [alignment] of assigned data, the argument of [setAlignment], the
    pasted [text-align] or, when that is empty, a configured default. *)
Definition brings_alignment (cfg : ParagraphConfig) (o : Operation) : bool :=
  match o with
  | OpPaste event =>
      if str_eqb (pasted_textAlign event) []
      then negb (truthy (defaultAlignment cfg)) || is_alignment (defaultAlignment cfg)
      else is_alignment (JStr (pasted_textAlign event))
  | OpSetAlignment a => is_alignment a
  | OpSetData data => is_alignment (alignment data)
  | OpMerge _ | OpKeyUp _ | OpSave => true
  end.

(** A run of clicks on the buttons of a [Paragraph] settings panel. *)
Definition clicks `{Runtime} (indices : list nat) (panel : Block * list Element)
  : Block * list Element :=
  fold_left (fun p i => Paragraph.click i (snd p) (fst p)) indices panel.

(** Exactly one control is active and exactly one alignment modifier class
    is on the root element. *)
Definition one_active_one_class (b : Block) (elements : list Element) : Prop :=
  List.length (active_buttons (_CSS b) elements) = 1%nat /\
  List.length (alignment_classes (_element b)) = 1%nat.

(** The four alignment modifier classes, in the order of the values. *)
Definition modifier_classes : list jsstring :=
  List.map (fun a => to_jsstring (CSS_alignment (JStr a))) alignment_values.

(** The operations that go through the data accessor only: all but
    [setAlignment], the one method of [ParagraphEx] that calls
    [classList.toggle] on the root. *)
Definition on_data_path (o : Operation) : bool :=
  match o with
  | OpSetAlignment _ => false
  | OpMerge _ | OpPaste _ | OpSetData _ | OpKeyUp _ | OpSave => true
  end.

(** The alignment the constructor computes for [this._data] before it draws
    the element: [data.alignment || config.defaultAlignment || 'left']. *)
Definition drawn_alignment (p : Params) : jsval :=
  js_or (js_or (alignment (p_data p)) (defaultAlignment (p_config p)))
        (JStr (lit "left")).

(** The parts of an element that [drawView] sets once: whether it is
    editable, whether the key-up listener is attached, and the placeholder. *)
Definition element_fixture (el : Element) : bool * bool * option jsstring :=
  (contentEditable el, keyup_listener el, dataset_placeholder el).

(** The property names a plain object inherits from [Object.prototype].
    Looked up in [_CSS.alignment], such a key yields a function or an object
    and not a class name, and [classList] rejects the string form of that
    with an [InvalidCharacterError]: [CSS_alignment] covers the other keys
    only. *)
Definition object_prototype_keys : list jsstring :=
  [lit "constructor"; lit "hasOwnProperty"; lit "isPrototypeOf";
   lit "propertyIsEnumerable"; lit "toLocaleString"; lit "toString";
   lit "valueOf"; lit "__proto__"; lit "__defineGetter__";
   lit "__defineSetter__"; lit "__lookupGetter__"; lit "__lookupSetter__"].

(** [v], as a property key, names an inherited property. *)
Definition inherited_key (v : jsval) : bool :=
  contains (to_jsstring v) object_prototype_keys.

(** HTML's ASCII white space: TAB, LF, FF, CR and SPACE. *)
Definition is_ascii_whitespace (c : N) : bool :=
  existsb (N.eqb c) [9; 10; 12; 13; 32].

(** A token [classList.add] and [classList.toggle] accept: not empty and
    free of ASCII white space. *)
Definition valid_token (t : jsstring) : bool :=
  negb (str_eqb t []) && forallb (fun c => negb (is_ascii_whitespace c)) t.

(** The arguments on which [drawView]'s [classList.add] does not throw, so
    that the constructor returns: the host's block style is a valid token
    and the alignment drawn is no inherited key. *)
Definition drawable (p : Params) : bool :=
  valid_token (styles_block (p_api p)) && negb (inherited_key (drawn_alignment p)).

(** * Properties *)

(** ** Strings, values and class lists *)

Lemma str_eqb_refl (a : jsstring) : str_eqb a a = true.
Proof.
  induction a as [|x a IH]; simpl; [reflexivity|].
  now rewrite N.eqb_refl, IH.
Qed.

Lemma str_eqb_eq (a b : jsstring) : str_eqb a b = true <-> a = b.
Proof.
  split.
  - revert b; induction a as [|x a IH]; intros [|y b] E; simpl in E;
      try discriminate; [reflexivity|].
    apply andb_true_iff in E as [Exy Eab].
    apply N.eqb_eq in Exy. apply IH in Eab. congruence.
  - intros ->. apply str_eqb_refl.
Qed.

Lemma str_eqb_sym (a b : jsstring) : str_eqb a b = str_eqb b a.
Proof.
  destruct (str_eqb a b) eqn:E.
  - apply str_eqb_eq in E. subst. symmetry. apply str_eqb_refl.
  - destruct (str_eqb b a) eqn:E'; [|reflexivity].
    apply str_eqb_eq in E'. subst. now rewrite str_eqb_refl in E.
Qed.

Lemma strict_eq_eq (a b : jsval) : strict_eq a b = true <-> a = b.
Proof.
  destruct a as [| |x|x], b as [| |y|y]; simpl;
    try (split; [discriminate|intros E; discriminate E]);
    try (split; reflexivity).
  - rewrite Bool.eqb_true_iff. split; congruence.
  - rewrite str_eqb_eq. split; congruence.
Qed.

Lemma strict_eq_refl (a : jsval) : strict_eq a a = true.
Proof. now apply strict_eq_eq. Qed.

(** [trimStart] leaves nothing exactly when every code unit is white space. *)
Lemma trimStart_nil (s : jsstring) :
  trimStart s = [] <-> forallb is_white_space s = true.
Proof.
  induction s as [|c r IH]; simpl.
  - split; reflexivity.
  - destruct (is_white_space c); simpl.
    + exact IH.
    + split; discriminate.
Qed.

(** What [trimStart] returns does not start with white space. *)
Lemma trimStart_head (s : jsstring) (c : N) (r : jsstring) :
  trimStart s = c :: r -> is_white_space c = false.
Proof.
  induction s as [|x s IH]; simpl; [discriminate|].
  destruct (is_white_space x) eqn:E; [exact IH|].
  intros [= -> _]. exact E.
Qed.

Lemma forallb_rev (f : N -> bool) (s : jsstring) :
  forallb f (rev s) = forallb f s.
Proof.
  induction s as [|c r IH]; simpl; [reflexivity|].
  rewrite forallb_app, IH. simpl. rewrite andb_true_r. apply andb_comm.
Qed.

Lemma rev_nil_iff (s : jsstring) : rev s = [] <-> s = [].
Proof.
  split; [|intros ->; reflexivity].
  intros E. apply (f_equal (@rev N)) in E. now rewrite rev_involutive in E.
Qed.

(** The trimmed string is empty exactly for the strings made of white space
    only (the empty string among them). *)
Lemma trim_nil (s : jsstring) :
  trim s = [] <-> forallb is_white_space s = true.
Proof.
  unfold trim, trimEnd.
  rewrite rev_nil_iff, trimStart_nil, forallb_rev.
  rewrite <- (trimStart_nil s).
  destruct (trimStart s) as [|c r] eqn:E; simpl.
  - split; reflexivity.
  - rewrite (trimStart_head _ E). simpl. split; discriminate.
Qed.


(** [s || d || 'left'] for a string [s]. *)
Lemma js_or_chain (s : jsstring) (d : jsval) :
  js_or (js_or (JStr s) d) (JStr (lit "left"))
  = if negb (str_eqb s []) then JStr s
    else if truthy d then d else JStr (lit "left").
Proof.
  unfold js_or. cbn [truthy].
  destruct (str_eqb s []) eqn:E; cbn [negb].
  - reflexivity.
  - cbn [truthy]. now rewrite E.
Qed.

Lemma contains_token_add (t u : jsstring) (cl : list jsstring) :
  contains t (token_add u cl) = str_eqb t u || contains t cl.
Proof.
  unfold token_add.
  destruct (contains u cl) eqn:E.
  - destruct (str_eqb t u) eqn:Etu; [|reflexivity].
    apply str_eqb_eq in Etu. subst. now rewrite E.
  - unfold contains. rewrite existsb_app. simpl.
    rewrite orb_false_r. apply orb_comm.
Qed.

Lemma contains_token_remove (t u : jsstring) (cl : list jsstring) :
  contains t (token_remove u cl) = negb (str_eqb t u) && contains t cl.
Proof.
  unfold token_remove, contains.
  induction cl as [|x cl IH]; simpl.
  - now rewrite andb_false_r.
  - destruct (str_eqb u x) eqn:Eux; simpl.
    + apply str_eqb_eq in Eux. subst x. rewrite IH.
      destruct (str_eqb t u); reflexivity.
    + rewrite IH. destruct (str_eqb t x) eqn:Etx; simpl.
      * apply str_eqb_eq in Etx. subst x.
        rewrite str_eqb_sym, Eux. reflexivity.
      * reflexivity.
Qed.

(** After [classList.toggle(u, force)], [u] is present exactly when [force]
    holds and every other token is as before. *)
Lemma contains_toggle (t u : jsstring) (force : bool) (el : Element) :
  contains t (classList (classList_toggle u force el)) =
  if str_eqb t u then force else contains t (classList el).
Proof.
  unfold classList_toggle. simpl.
  destruct force.
  - rewrite contains_token_add. destruct (str_eqb t u); reflexivity.
  - rewrite contains_token_remove. destruct (str_eqb t u); reflexivity.
Qed.

(** ** The data accessor *)

Section Accessor.
Context {R : Runtime}.

Lemma set_data_alignment (d : ParagraphData) (b : Block) :
  alignment (_data (ParagraphEx.set_data d b)) = alignment d.
Proof. reflexivity. Qed.

(** Assigning an empty or missing text leaves empty markup. *)
Lemma set_data_falsy_text (d : ParagraphData) (b : Block) :
  truthy (text d) = false ->
  innerHTML (_element (ParagraphEx.set_data d b)) = [].
Proof.
  intros F. unfold ParagraphEx.set_data, js_or. simpl. rewrite F. simpl.
  apply html_serialize_empty.
Qed.

(** Assigning a string writes it to the element, whether it is empty or
    not. *)
Lemma set_data_string (s : jsstring) (a : jsval) (b : Block) :
  innerHTML (_element (ParagraphEx.set_data {| text := JStr s; alignment := a |} b))
  = html_serialize s.
Proof.
  unfold ParagraphEx.set_data, js_or. simpl.
  destruct (str_eqb s []) eqn:E; simpl; [|reflexivity].
  apply str_eqb_eq in E. now subst.
Qed.

Lemma save_text (el : Element) (b : Block) :
  text (snd (ParagraphEx.save el b)) = JStr (innerHTML el).
Proof. reflexivity. Qed.

Lemma save_alignment (el : Element) (b : Block) :
  alignment (snd (ParagraphEx.save el b)) = alignment (_data b).
Proof. reflexivity. Qed.

Lemma save_result (el : Element) (b : Block) :
  snd (ParagraphEx.save el b)
  = {| text := JStr (innerHTML el); alignment := alignment (_data b) |}.
Proof. reflexivity. Qed.

Lemma old_save_result (el : Element) (b : Block) :
  snd (Paragraph.save el b)
  = {| text := JStr (innerHTML el); alignment := alignment (_data b) |}.
Proof. reflexivity. Qed.

End Accessor.

(** ** Construction and saving *)

Section Construction.
Context {R : Runtime}.

(** C1 (the code departs from the claim): a block constructed from
    [data = {}] saves the text [""], but its alignment is [undefined], for
    every configuration.  The constructor computes the default alignment
    (and draws the element with its class), then assigns [this.data = data],
    which replaces the defaulted object by the one passed in. *)
Theorem C1_empty_data_saves_undefined_alignment
    (cfg : ParagraphConfig) (a : Api) (ro : jsval) :
  let p := {| p_data := empty_data; p_config := cfg; p_api := a; p_readOnly := ro |} in
  let b := ParagraphEx.constructor p in
  let b' := Paragraph.constructor p in
  snd (ParagraphEx.save (ParagraphEx.render b) b)
    = {| text := JStr []; alignment := JUndefined |}
  /\ snd (Paragraph.save (Paragraph.render b') b')
    = {| text := JStr []; alignment := JUndefined |}
  /\ contains
       (to_jsstring
          (CSS_alignment (js_or (defaultAlignment cfg) (JStr ParagraphEx.DEFAULT_ALIGNMENT))))
       (classList (_element b)) = true.
Proof.
  intros p b b'.
  assert (E : innerHTML (_element b) = []).
  { unfold b, ParagraphEx.constructor. now apply set_data_falsy_text. }
  assert (E' : innerHTML (_element b') = []).
  { unfold b', Paragraph.constructor, Paragraph.set_data, js_or. simpl.
    apply html_serialize_empty. }
  repeat split.
  - rewrite save_result. unfold ParagraphEx.render. now rewrite E.
  - rewrite old_save_result. unfold Paragraph.render. now rewrite E'.
  - unfold b, ParagraphEx.constructor, ParagraphEx.set_data, ParagraphEx.drawView.
    simpl.
    set (c := to_jsstring (CSS_alignment _)).
    destruct (truthy ro); simpl; unfold classList_add; simpl;
      rewrite contains_token_add, str_eqb_refl; reflexivity.
Qed.

(** C8: for each of the four alignment values [a], a block constructed with
    [data.alignment = a] saves [alignment === a] (whatever the text, the
    configuration and the read-only flag). *)
Theorem C8_alignment_round_trip
    (a : jsstring) (t : jsval) (cfg : ParagraphConfig) (ap : Api) (ro : jsval) :
  In a alignment_values ->
  let p := {| p_data := {| text := t; alignment := JStr a |};
              p_config := cfg; p_api := ap; p_readOnly := ro |} in
  let b := ParagraphEx.constructor p in
  alignment (snd (ParagraphEx.save (ParagraphEx.render b) b)) = JStr a
  /\ is_alignment (alignment (snd (ParagraphEx.save (ParagraphEx.render b) b))) = true.
Proof.
  intros Ha p b.
  assert (E : alignment (snd (ParagraphEx.save (ParagraphEx.render b) b)) = JStr a).
  { rewrite save_alignment. unfold b, ParagraphEx.constructor.
    now rewrite set_data_alignment. }
  split; [exact E|].
  rewrite E. unfold is_alignment. apply existsb_exists.
  exists a. split; [exact Ha|apply strict_eq_refl].
Qed.

End Construction.

(** The round trip at [a = "justify"], on an editable block with text. *)
Lemma C8_alignment_round_trip_witness :
  let R := example_runtime (Some []) in
  let p := {| p_data := {| text := JStr (lit "Hello"); alignment := JStr (lit "justify") |};
              p_config := empty_config; p_api := example_api;
              p_readOnly := JBool false |} in
  let b := ParagraphEx.constructor p in
  In (lit "justify") alignment_values
  /\ alignment (snd (ParagraphEx.save (ParagraphEx.render b) b)) = JStr (lit "justify")
  /\ is_alignment (alignment (snd (ParagraphEx.save (ParagraphEx.render b) b))) = true.
Proof.
  intros R p b.
  assert (H : In (lit "justify") alignment_values).
  { right. right. right. left. reflexivity. }
  split; [exact H|].
  exact (@C8_alignment_round_trip R (lit "justify") (JStr (lit "Hello"))
           empty_config example_api (JBool false) H).
Defined.

(** ** Validation *)

Section Validation.
Context {R : Runtime}.

Lemma validate_string (s : jsstring) (a : jsval) (b : Block) :
  ParagraphEx.validate {| text := JStr s; alignment := a |} b
  = Normal (negb (str_eqb (trim s) [] && negb (truthy (_preserveBlank b)))).
Proof. reflexivity. Qed.

(** The constructor stores [config.preserveBlank] as given, and [false] when
    the option is left out. *)
Lemma constructor_preserveBlank (p : Params) :
  _preserveBlank (ParagraphEx.constructor p)
  = match preserveBlank (p_config p) with
    | JUndefined => JBool false
    | v => v
    end.
Proof.
  unfold ParagraphEx.constructor, ParagraphEx.set_data. simpl.
  destruct (preserveBlank (p_config p)); reflexivity.
Qed.

(** C3: on saved data whose text is a string, [validate] returns [false]
    exactly when the trimmed text is empty and [preserveBlank] is false, and
    [true] in every other case; [preserveBlank] is the configured boolean,
    [false] when the configuration leaves it out.  The trimmed text is empty
    exactly when the text holds nothing but white space. *)
Theorem C3_validate_rejects_blank_text
    (s : jsstring) (a : jsval) (d : ParagraphData) (pb : option bool)
    (ph da : jsval) (ap : Api) (ro : jsval) :
  let cfg := {| placeholder := ph;
                preserveBlank := match pb with Some x => JBool x | None => JUndefined end;
                defaultAlignment := da |} in
  let b := ParagraphEx.constructor
             {| p_data := d; p_config := cfg; p_api := ap; p_readOnly := ro |} in
  let saved := {| text := JStr s; alignment := a |} in
  let preserve := match pb with Some x => x | None => false end in
  (ParagraphEx.validate saved b = Normal false <-> trim s = [] /\ preserve = false)
  /\ (ParagraphEx.validate saved b = Normal true <-> ~ (trim s = [] /\ preserve = false))
  /\ (forall b0 : Block,
        ParagraphEx.validate saved b0
        = Normal (negb (str_eqb (trim s) [] && negb (truthy (_preserveBlank b0)))))
  /\ (trim s = [] <-> forallb is_white_space s = true).
Proof.
  intros cfg b saved preserve.
  assert (P : truthy (_preserveBlank b) = preserve).
  { unfold b. rewrite constructor_preserveBlank. simpl.
    unfold preserve. destruct pb as [[|]|]; reflexivity. }
  assert (V : ParagraphEx.validate saved b
              = Normal (negb (str_eqb (trim s) [] && negb preserve))).
  { unfold saved. now rewrite validate_string, P. }
  assert (T : str_eqb (trim s) [] = true <-> trim s = []) by apply str_eqb_eq.
  split; [|split; [|split]]; [| | |apply trim_nil].
  - rewrite V. split.
    + intros [= H]. apply negb_false_iff, andb_true_iff in H as [H1 H2].
      split; [now apply T|now apply negb_true_iff in H2].
    + intros [H1 H2]. apply T in H1. now rewrite H1, H2.
  - rewrite V. split.
    + intros [= H] [H1 H2]. apply T in H1. now rewrite H1, H2 in H.
    + intros H. f_equal. apply negb_true_iff, andb_false_iff.
      destruct (str_eqb (trim s) []) eqn:E; [right|now left].
      destruct preserve; [reflexivity|].
      exfalso. apply H. split; [now apply T|reflexivity].
  - intros b0. reflexivity.
Qed.

(** C9: [validate] returns a boolean exactly when [savedData.text] is a
    string; on every other text (a missing one, [null], a boolean) the call
    throws a [TypeError], and such an input exists: [validate({})].  The same
    holds of both variants of the class. *)
Theorem C9_validate_needs_string_text (saved : ParagraphData) (b : Block) :
  ((exists r : bool, ParagraphEx.validate saved b = Normal r)
     <-> is_string (text saved) = true)
  /\ (ParagraphEx.validate saved b = Throw TypeError
     <-> is_string (text saved) = false)
  /\ ((exists r : bool, Paragraph.validate saved b = Normal r)
     <-> is_string (text saved) = true)
  /\ (Paragraph.validate saved b = Throw TypeError
     <-> is_string (text saved) = false)
  /\ ParagraphEx.validate empty_data b = Throw TypeError
  /\ Paragraph.validate empty_data b = Throw TypeError.
Proof.
  unfold ParagraphEx.validate, Paragraph.validate.
  destruct saved as [t a]. simpl.
  destruct t as [| |x|s]; simpl; repeat split;
    try reflexivity; try discriminate;
    try (intros [r H]; discriminate H);
    try (intros _; eexists; reflexivity).
Qed.

End Validation.

(** ** Merging, pasting and the key-up handler *)

Section Editing.
Context {R : Runtime}.

Lemma merge_unfold (data : ParagraphData) (b : Block) :
  ParagraphEx.merge data b
  = ParagraphEx.set_data
      {| text := JStr (innerHTML (_element b) ++ to_jsstring (text data));
         alignment := alignment (_data b) |}
      (fst (ParagraphEx.get_data (fst (ParagraphEx.get_data b)))).
Proof. reflexivity. Qed.



Lemma set_innerHTML_empty (el : Element) : innerHTML (set_innerHTML [] el) = [].
Proof. simpl. apply html_serialize_empty. Qed.

(** C6: on a key-up whose code is [Backspace] or [Delete], when the
    element's text content is empty the handler empties the element's
    markup, so the block saves the text [""]; on any other code, and when
    the text content is not empty, the block is left as it is.  Both
    variants of the class behave so. *)
Theorem C6_deletion_key_clears_empty_element (e : KeyboardEvent) (b : Block) :
  (code e = lit "Backspace" \/ code e = lit "Delete" ->
   textContent (_element b) = [] ->
   let b' := ParagraphEx.onKeyUp e b in
   innerHTML (_element b') = []
   /\ text (snd (ParagraphEx.save (ParagraphEx.render b') b')) = JStr []
   /\ Paragraph.onKeyUp e b = b')
  /\ (code e <> lit "Backspace" -> code e <> lit "Delete" ->
      ParagraphEx.onKeyUp e b = b /\ Paragraph.onKeyUp e b = b)
  /\ (textContent (_element b) <> [] ->
      ParagraphEx.onKeyUp e b = b /\ Paragraph.onKeyUp e b = b).
Proof.
  split; [|split].
  - intros K T b'.
    assert (E : b' = with_element (set_innerHTML [] (_element b)) b).
    { unfold b', ParagraphEx.onKeyUp. rewrite T. simpl.
      destruct K as [-> | ->]; reflexivity. }
    split; [|split].
    + rewrite E. apply set_innerHTML_empty.
    + rewrite save_text. unfold ParagraphEx.render. rewrite E.
      simpl. now rewrite html_serialize_empty.
    + reflexivity.
  - intros NB ND.
    assert (B : str_eqb (code e) (lit "Backspace") = false).
    { destruct (str_eqb (code e) (lit "Backspace")) eqn:E; [|reflexivity].
      now apply str_eqb_eq in E. }
    assert (D : str_eqb (code e) (lit "Delete") = false).
    { destruct (str_eqb (code e) (lit "Delete")) eqn:E; [|reflexivity].
      now apply str_eqb_eq in E. }
    unfold ParagraphEx.onKeyUp, Paragraph.onKeyUp. rewrite B, D. simpl.
    split; reflexivity.
  - intros NT.
    assert (T : str_eqb (textContent (_element b)) [] = false).
    { destruct (str_eqb (textContent (_element b)) []) eqn:E; [|reflexivity].
      now apply str_eqb_eq in E. }
    unfold ParagraphEx.onKeyUp, Paragraph.onKeyUp. rewrite T.
    split; destruct (negb _ && negb _); reflexivity.
Qed.

End Editing.



(** The browser left [<br>] in an emptied paragraph; releasing Backspace
    clears it and the block saves "". *)
Lemma C6_deletion_key_witness :
  let R := example_runtime (Some []) in
  let b0 := ParagraphEx.constructor
              {| p_data := {| text := JStr (lit "x"); alignment := JStr (lit "left") |};
                 p_config := empty_config; p_api := example_api;
                 p_readOnly := JBool false |} in
  let b := with_element (set_innerHTML (lit "<br>") (_element b0)) b0 in
  let e := {| code := lit "Backspace" |} in
  let b' := ParagraphEx.onKeyUp e b in
  ((code e = lit "Backspace" \/ code e = lit "Delete")
   /\ textContent (_element b) = []
   /\ innerHTML (_element b) = lit "<br>")
  /\ innerHTML (_element b') = []
  /\ text (snd (ParagraphEx.save (ParagraphEx.render b') b')) = JStr []
  /\ Paragraph.onKeyUp e b = b'.
Proof.
  intros R b0 b e b'.
  destruct (@C6_deletion_key_clears_empty_element R e b) as (H & _ & _).
  split.
  - split; [left; reflexivity|split; reflexivity].
  - apply H; [left; reflexivity|reflexivity].
Defined.

(** ** The stored alignment and text across operations *)

Section Invariant.
Context {R : Runtime}.

Lemma perform_config (o : Operation) (b : Block) :
  config (perform o b) = config b.
Proof.
  destruct o as [data|event|a|data|e|]; simpl; try reflexivity.
  - unfold ParagraphEx.setAlignment. simpl.
    destruct window_name; reflexivity.
  - unfold ParagraphEx.onKeyUp.
    destruct (negb _ && negb _); [reflexivity|].
    destruct (str_eqb _ _); reflexivity.
Qed.

Lemma setAlignment_alignment (a : jsval) (b : Block) :
  alignment (_data (fst (ParagraphEx.setAlignment a b))) = a.
Proof.
  unfold ParagraphEx.setAlignment. simpl.
  destruct window_name; reflexivity.
Qed.

Lemma onKeyUp_data (e : KeyboardEvent) (b : Block) :
  _data (ParagraphEx.onKeyUp e b) = _data b.
Proof.
  unfold ParagraphEx.onKeyUp.
  destruct (negb _ && negb _); [reflexivity|].
  destruct (str_eqb _ _); reflexivity.
Qed.

(** One operation that brings one of the four values, or none, keeps the
    stored alignment among the four values. *)
Lemma perform_keeps_alignment (o : Operation) (b : Block) :
  brings_alignment (config b) o = true ->
  is_alignment (alignment (_data b)) = true ->
  is_alignment (alignment (_data (perform o b))) = true.
Proof.
  intros B A.
  destruct o as [data|event|a|data|e|]; cbn [perform brings_alignment] in *.
  - exact A.
  - unfold ParagraphEx.onPaste. rewrite set_data_alignment.
    change (JStr ParagraphEx.DEFAULT_ALIGNMENT) with (JStr (lit "left")).
    rewrite js_or_chain.
    destruct (str_eqb (pasted_textAlign event) []); simpl; [|exact B].
    destruct (truthy (defaultAlignment (config b))); simpl in B;
      [exact B|reflexivity].
  - rewrite setAlignment_alignment. exact B.
  - exact B.
  - rewrite onKeyUp_data. exact A.
  - exact A.
Qed.

Lemma perform_all_keeps_alignment (ops : list Operation) (b : Block) :
  forallb (brings_alignment (config b)) ops = true ->
  is_alignment (alignment (_data b)) = true ->
  is_alignment (alignment (_data (perform_all ops b))) = true.
Proof.
  revert b. induction ops as [|o ops IH]; intros b F A; simpl in *.
  - exact A.
  - apply andb_true_iff in F as [Fo Fops].
    apply IH.
    + now rewrite perform_config.
    + now apply perform_keeps_alignment.
Qed.

Lemma constructor_config (p : Params) :
  config (ParagraphEx.constructor p) = p_config p.
Proof. reflexivity. Qed.

Lemma constructor_data (p : Params) :
  _data (ParagraphEx.constructor p) = p_data p.
Proof. reflexivity. Qed.

(** C2 (as amended): the text read through the data accessor, and the text
    [save] returns, is a string after construction and after any sequence of
    operations.  The alignment is stored as supplied, with no check against
    the four values: it is one of the four after construction and after
    every operation provided the data the block is constructed from carries
    one of them and so does every operation that brings an alignment
    ([setAlignment], a data assignment, a paste whose [text-align], or else
    the configured default, is one of them; a paste with neither gets
    ['left']); [merge], key-ups and [save] keep the alignment they find. *)
Theorem C2_alignment_kept_when_supplied_text_always_string
    (p : Params) (ops : list Operation) :
  is_alignment (alignment (p_data p)) = true ->
  forallb (brings_alignment (p_config p)) ops = true ->
  let b := perform_all ops (ParagraphEx.constructor p) in
  is_alignment (alignment (_data b)) = true
  /\ is_alignment (alignment (snd (ParagraphEx.save (ParagraphEx.render b) b))) = true
  /\ is_string (text (snd (ParagraphEx.get_data b))) = true
  /\ is_string (text (snd (ParagraphEx.save (ParagraphEx.render b) b))) = true.
Proof.
  intros A F b.
  assert (H : is_alignment (alignment (_data b)) = true).
  { unfold b. apply perform_all_keeps_alignment.
    - now rewrite constructor_config.
    - now rewrite constructor_data. }
  split; [exact H|]. split; [|split].
  - now rewrite save_alignment.
  - reflexivity.
  - now rewrite save_text.
Qed.

End Invariant.

(** C2, the claim as stated fails: constructed from
    [{alignment: "bogus"}] with an empty configuration, the block stores the
    alignment ["bogus"], which is none of the four values, and saves it; the
    stored text field is [undefined] until the accessor is next read. *)
Lemma C2_unknown_alignment_is_stored :
  let R := example_runtime (Some []) in
  let b := ParagraphEx.constructor
             {| p_data := {| text := JUndefined; alignment := JStr (lit "bogus") |};
                p_config := empty_config; p_api := example_api;
                p_readOnly := JBool false |} in
  alignment (_data b) = JStr (lit "bogus")
  /\ is_alignment (alignment (_data b)) = false
  /\ is_alignment (alignment (snd (ParagraphEx.save (ParagraphEx.render b) b))) = false
  /\ is_string (text (_data b)) = false.
Proof.
  intros R b. repeat split; vm_compute; reflexivity.
Qed.

(** A block constructed right-aligned, then merged with "B", pasted over
    with an element that has no [text-align], set to centre, and saved. *)
Lemma C2_alignment_kept_witness :
  let R := example_runtime (Some []) in
  let p := {| p_data := {| text := JStr (lit "A"); alignment := JStr (lit "right") |};
              p_config := empty_config; p_api := example_api;
              p_readOnly := JBool false |} in
  let ops := [ OpMerge {| text := JStr (lit "B"); alignment := JUndefined |};
               OpPaste {| pasted_innerHTML := lit "<b>C</b>"; pasted_textAlign := [] |};
               OpSetAlignment (JStr (lit "center"));
               OpKeyUp {| code := lit "Delete" |};
               OpSave ] in
  let b := perform_all ops (ParagraphEx.constructor p) in
  (is_alignment (alignment (p_data p)) = true
   /\ forallb (brings_alignment (p_config p)) ops = true)
  /\ is_alignment (alignment (_data b)) = true
  /\ is_alignment (alignment (snd (ParagraphEx.save (ParagraphEx.render b) b))) = true
  /\ is_string (text (snd (ParagraphEx.get_data b))) = true
  /\ is_string (text (snd (ParagraphEx.save (ParagraphEx.render b) b))) = true.
Proof.
  intros R p ops b.
  split; [split; reflexivity|].
  apply (@C2_alignment_kept_when_supplied_text_always_string R p ops); reflexivity.
Defined.

(** ** The two variants on the data path *)

Section Variants.
Context {R : Runtime}.

Lemma get_data_agrees (b : Block) : ParagraphEx.get_data b = Paragraph.get_data b.
Proof. reflexivity. Qed.

Lemma set_data_agrees (d : ParagraphData) (b : Block) :
  ParagraphEx.set_data d b = Paragraph.set_data d b.
Proof. reflexivity. Qed.

Lemma drawView_agrees (a : Api) (css : CSS) (d : ParagraphData) (ph ro : jsval) :
  ParagraphEx.drawView a css d ph ro = Paragraph.drawView a css d ph ro.
Proof. reflexivity. Qed.

(** C10: on the data path the two variants are the same function: from the
    same arguments the constructors build the same block, and on the same
    block [validate], [merge], [save], [onPaste] and [onKeyUp] return the
    same result and leave the same block. *)
Theorem C10_variants_agree_on_data_path
    (p : Params) (b : Block) (d : ParagraphData) (el : Element)
    (event : PasteEvent) (e : KeyboardEvent) :
  ParagraphEx.constructor p = Paragraph.constructor p
  /\ ParagraphEx.validate d b = Paragraph.validate d b
  /\ ParagraphEx.merge d b = Paragraph.merge d b
  /\ ParagraphEx.save el b = Paragraph.save el b
  /\ ParagraphEx.onPaste event b = Paragraph.onPaste event b
  /\ ParagraphEx.onKeyUp e b = Paragraph.onKeyUp e b.
Proof.
  split; [|split; [|split; [|split; [|split]]]].
  - unfold ParagraphEx.constructor, Paragraph.constructor.
    rewrite drawView_agrees.
    change ParagraphEx.DEFAULT_ALIGNMENT with Paragraph.DEFAULT_ALIGNMENT.
    change ParagraphEx.DEFAULT_PLACEHOLDER with Paragraph.DEFAULT_PLACEHOLDER.
    apply set_data_agrees.
  - unfold ParagraphEx.validate, Paragraph.validate.
    destruct (text d); reflexivity.
  - unfold ParagraphEx.merge, Paragraph.merge.
    rewrite !get_data_agrees.
    destruct (Paragraph.get_data b) as [b1 d1].
    rewrite !get_data_agrees.
    destruct (Paragraph.get_data b1) as [b2 d2].
    apply set_data_agrees.
  - unfold ParagraphEx.save, Paragraph.save. now rewrite get_data_agrees.
  - unfold ParagraphEx.onPaste, Paragraph.onPaste.
    change ParagraphEx.DEFAULT_ALIGNMENT with Paragraph.DEFAULT_ALIGNMENT.
    apply set_data_agrees.
  - unfold ParagraphEx.onKeyUp, Paragraph.onKeyUp.
    destruct (negb _ && negb _); [reflexivity|].
    destruct (str_eqb _ _); reflexivity.
Qed.

End Variants.

(** ** The settings panel *)

Section Settings.
Context {R : Runtime}.

Lemma filter_marks (A : Type) (f : A -> bool) (l : list A) :
  List.length (filter f l) = List.length (filter (fun m : bool => m) (List.map f l)).
Proof.
  induction l as [|x l IH]; simpl; [reflexivity|].
  destruct (f x); simpl; now rewrite IH.
Qed.

(** One mark is set when the value is one of the four, none otherwise. *)
Lemma alignment_marks_count (a : jsval) :
  List.length (filter (fun m : bool => m) (alignment_marks a))
  = if is_alignment a then 1%nat else 0%nat.
Proof.
  destruct a as [| |x|s]; try reflexivity.
  unfold alignment_marks, is_alignment, alignment_values.
  cbn [List.map filter existsb strict_eq].
  rewrite !(str_eqb_sym s).
  destruct (str_eqb (lit "left") s) eqn:E1;
    [apply str_eqb_eq in E1; subst s; reflexivity|].
  destruct (str_eqb (lit "center") s) eqn:E2;
    [apply str_eqb_eq in E2; subst s; reflexivity|].
  destruct (str_eqb (lit "right") s) eqn:E3;
    [apply str_eqb_eq in E3; subst s; reflexivity|].
  destruct (str_eqb (lit "justify") s) eqn:E4; reflexivity.
Qed.

Lemma active_buttons_count (css : CSS) (elements : list Element) :
  List.length (active_buttons css elements)
  = List.length (filter (fun m : bool => m) (button_marks css elements)).
Proof. apply filter_marks. Qed.

Lemma alignment_classes_count (el : Element) :
  List.length (alignment_classes el)
  = List.length (filter (fun m : bool => m) (class_marks el)).
Proof.
  unfold alignment_classes, class_marks.
  rewrite filter_marks, !map_map. reflexivity.
Qed.

Lemma toggleTune_alignment (tune : jsstring) (b : Block) :
  alignment (_data (Paragraph._toggleTune tune b))
  = if strict_eq (alignment (_data b)) (JStr tune)
    then defaultAlignment (config b) else JStr tune.
Proof.
  unfold Paragraph._toggleTune. simpl.
  destruct (strict_eq (alignment (_data b)) (JStr tune)); reflexivity.
Qed.

Lemma toggleTune_frame (tune : jsstring) (b : Block) :
  config (Paragraph._toggleTune tune b) = config b
  /\ _CSS (Paragraph._toggleTune tune b) = _CSS b.
Proof.
  unfold Paragraph._toggleTune. simpl.
  destruct (strict_eq (alignment (_data b)) (JStr tune)); split; reflexivity.
Qed.

(** The listener's loop over the four buttons, unrolled: every button is
    toggled on its tune's test against the stored alignment, and so is each
    modifier class of the root. *)
Lemma refresh_four (e0 e1 e2 e3 : Element) (b : Block) :
  let r := Paragraph.refresh [e0; e1; e2; e3] Paragraph._tunesButtons b in
  let a := alignment (_data b) in
  let on (n : string) := strict_eq (JStr (lit n)) a in
  let active := css_settingsButtonActive (_CSS b) in
  alignment (_data (fst r)) = a
  /\ config (fst r) = config b
  /\ _CSS (fst r) = _CSS b
  /\ snd r = [ classList_toggle active (on "left"%string) e0;
               classList_toggle active (on "center"%string) e1;
               classList_toggle active (on "right"%string) e2;
               classList_toggle active (on "justify"%string) e3 ]
  /\ classList (_element (fst r))
     = classList
         (classList_toggle (lit "ce-paragraph--justify") (on "justify"%string)
         (classList_toggle (lit "ce-paragraph--right") (on "right"%string)
         (classList_toggle (lit "ce-paragraph--center") (on "center"%string)
         (classList_toggle (lit "ce-paragraph--left") (on "left"%string) (_element b))))).
Proof.
  repeat split.
Qed.

Lemma active_after_toggle (active : jsstring) (force : bool) (el : Element) :
  contains active (classList (classList_toggle active force el)) = force.
Proof. now rewrite contains_toggle, str_eqb_refl. Qed.

(** After the loop the buttons' active classes and the root's modifier
    classes both spell the stored alignment. *)
Lemma refresh_marks (elements : list Element) (b : Block) :
  List.length elements = 4%nat ->
  let r := Paragraph.refresh elements Paragraph._tunesButtons b in
  button_marks (_CSS (fst r)) (snd r) = alignment_marks (alignment (_data b))
  /\ class_marks (_element (fst r)) = alignment_marks (alignment (_data b)).
Proof.
  intros L.
  destruct elements as [|e0 [|e1 [|e2 [|e3 [|e4 rest]]]]]; try discriminate L.
  intros r.
  destruct (refresh_four e0 e1 e2 e3 b) as (_ & _ & C & E & K).
  fold r in C, E, K.
  unfold button_marks, class_marks, alignment_marks, alignment_values.
  rewrite C, E, K. cbn [List.map].
  split.
  - now rewrite !active_after_toggle.
  - rewrite !contains_toggle.
    destruct (strict_eq (JStr (lit "left")) _), (strict_eq (JStr (lit "center")) _),
      (strict_eq (JStr (lit "right")) _), (strict_eq (JStr (lit "justify")) _);
      vm_compute; reflexivity.
Qed.

Lemma refresh_length (elements : list Element) (b : Block) :
  List.length elements = 4%nat ->
  List.length (snd (Paragraph.refresh elements Paragraph._tunesButtons b)) = 4%nat.
Proof.
  intros L.
  destruct elements as [|e0 [|e1 [|e2 [|e3 [|e4 rest]]]]]; try discriminate L.
  reflexivity.
Qed.

Lemma refresh_frame (elements : list Element) (b : Block) :
  List.length elements = 4%nat ->
  let r := Paragraph.refresh elements Paragraph._tunesButtons b in
  alignment (_data (fst r)) = alignment (_data b)
  /\ config (fst r) = config b.
Proof.
  intros L.
  destruct elements as [|e0 [|e1 [|e2 [|e3 [|e4 rest]]]]]; try discriminate L.
  split; reflexivity.
Qed.

(** A click keeps the panel's four buttons and the configuration. *)
Lemma click_frame (index : nat) (elements : list Element) (b : Block) :
  List.length elements = 4%nat ->
  List.length (snd (Paragraph.click index elements b)) = 4%nat
  /\ config (fst (Paragraph.click index elements b)) = config b.
Proof.
  intros L. unfold Paragraph.click.
  destruct (nth_error Paragraph._tunesButtons index) as [tune|].
  - split.
    + now apply refresh_length.
    + destruct (refresh_frame elements (Paragraph._toggleTune (Paragraph.name tune) b) L)
        as [_ C].
      rewrite C. apply toggleTune_frame.
  - split; [exact L|reflexivity].
Qed.

(** A click on the button of [tune]: the alignment it leaves, spelled by the
    buttons and by the root's classes. *)
Lemma click_marks (index : nat) (tune : Paragraph.Tune)
    (elements : list Element) (b : Block) :
  nth_error Paragraph._tunesButtons index = Some tune ->
  List.length elements = 4%nat ->
  let r := Paragraph.click index elements b in
  let a := if strict_eq (alignment (_data b)) (JStr (Paragraph.name tune))
           then defaultAlignment (config b) else JStr (Paragraph.name tune) in
  alignment (_data (fst r)) = a
  /\ button_marks (_CSS (fst r)) (snd r) = alignment_marks a
  /\ class_marks (_element (fst r)) = alignment_marks a.
Proof.
  intros N L r a.
  unfold r, Paragraph.click. rewrite N.
  set (b1 := Paragraph._toggleTune (Paragraph.name tune) b).
  assert (A : alignment (_data b1) = a) by apply toggleTune_alignment.
  destruct (refresh_frame elements b1 L) as [F _].
  destruct (refresh_marks elements b1 L) as [M1 M2].
  rewrite A in F, M1, M2.
  split; [exact F|]. split; [exact M1|exact M2].
Qed.

Lemma clicks_snoc (indices : list nat) (i : nat) (panel : Block * list Element) :
  clicks (indices ++ [i]) panel
  = Paragraph.click i (snd (clicks indices panel)) (fst (clicks indices panel)).
Proof. unfold clicks. now rewrite fold_left_app. Qed.

Lemma clicks_frame (indices : list nat) (elements : list Element) (b : Block) :
  List.length elements = 4%nat ->
  List.length (snd (clicks indices (b, elements))) = 4%nat
  /\ config (fst (clicks indices (b, elements))) = config b.
Proof.
  intros L. induction indices as [|i indices IH] using rev_ind.
  - split; [exact L|reflexivity].
  - destruct IH as [IL IC]. rewrite clicks_snoc.
    destruct (click_frame i (snd (clicks indices (b, elements)))
                (fst (clicks indices (b, elements))) IL) as [HL HC].
    split; [exact HL|]. now rewrite HC.
Qed.

Lemma tune_at (index : nat) :
  (index < 4)%nat ->
  exists tune, nth_error Paragraph._tunesButtons index = Some tune
               /\ is_alignment (JStr (Paragraph.name tune)) = true.
Proof.
  intros I.
  destruct index as [|[|[|[|n]]]]; try lia;
    eexists; (split; [reflexivity|reflexivity]).
Qed.

(** The items [ParagraphEx.renderSettings] marks active spell the stored
    alignment. *)
Lemma renderSettings_marks (b : Block) :
  List.map ParagraphEx.isActive (ParagraphEx.renderSettings b)
  = alignment_marks (alignment (_data b)).
Proof.
  unfold ParagraphEx.renderSettings, ParagraphEx.currentAlignment_value,
    ParagraphEx.currentAlignment, ParagraphEx._tunesButtons, alignment_marks,
    alignment_values.
  destruct (alignment (_data b)) as [| |x|s]; try reflexivity.
  cbn [find strict_eq ParagraphEx.value ParagraphEx.isActive List.map].
  destruct (str_eqb (lit "left") s) eqn:E1;
    [apply str_eqb_eq in E1; subst s; reflexivity|].
  destruct (str_eqb (lit "center") s) eqn:E2;
    [apply str_eqb_eq in E2; subst s; reflexivity|].
  destruct (str_eqb (lit "right") s) eqn:E3;
    [apply str_eqb_eq in E3; subst s; reflexivity|].
  destruct (str_eqb (lit "justify") s) eqn:E4;
    [apply str_eqb_eq in E4; subst s; reflexivity|].
  reflexivity.
Qed.

(** The item at position [i] of the menu activates [setAlignment] on the
    value of the tune at [i]. *)
Lemma renderSettings_item (b : Block) (i : nat) (item : ParagraphEx.MenuItem) :
  nth_error (ParagraphEx.renderSettings b) i = Some item ->
  exists tune,
    nth_error ParagraphEx._tunesButtons i = Some tune
    /\ ParagraphEx.onActivate item
       = ParagraphEx.setAlignment (JStr (ParagraphEx.value tune))
    /\ nth_error alignment_values i = Some (ParagraphEx.value tune).
Proof.
  unfold ParagraphEx.renderSettings, ParagraphEx._tunesButtons.
  destruct i as [|[|[|[|n]]]]; simpl; intros N;
    try (destruct n; discriminate N);
    injection N as <-;
    eexists; (split; [reflexivity|split; reflexivity]).
Qed.

End Settings.

Section Activation.
Context {R : Runtime}.

(** X12: activating a control marks the alignment the block is left with,
    whichever it is.  In [Paragraph], a click on a button stores the button's
    alignment, or [config.defaultAlignment] when the button's alignment was
    the stored one; after the click a button is active, and a modifier class
    is on the root, exactly when its alignment is the stored one: exactly one
    of each when the stored alignment is one of the four values, none when
    it is not.  So after any run of clicks there is exactly one of each when
    [config.defaultAlignment] is one of the four values.  In [ParagraphEx],
    activating an item of the menu stores the item's alignment, and the menu
    rendered next marks that item, and only it, active. *)
Theorem X12_activation_marks_stored_alignment :
  (forall (b : Block) (elements : list Element) (index : nat) (tune : Paragraph.Tune),
      nth_error Paragraph._tunesButtons index = Some tune ->
      List.length elements = 4%nat ->
      let b' := fst (Paragraph.click index elements b) in
      let elements' := snd (Paragraph.click index elements b) in
      alignment (_data b')
      = (if strict_eq (alignment (_data b)) (JStr (Paragraph.name tune))
         then defaultAlignment (config b) else JStr (Paragraph.name tune))
      /\ button_marks (_CSS b') elements' = alignment_marks (alignment (_data b'))
      /\ class_marks (_element b') = alignment_marks (alignment (_data b'))
      /\ (is_alignment (alignment (_data b')) = true ->
          one_active_one_class b' elements')
      /\ (is_alignment (alignment (_data b')) = false ->
          active_buttons (_CSS b') elements' = []
          /\ alignment_classes (_element b') = []))
  /\ (forall (b : Block) (elements : list Element) (indices : list nat),
        indices <> [] ->
        Forall (fun i => (i < 4)%nat) indices ->
        List.length elements = 4%nat ->
        is_alignment (defaultAlignment (config b)) = true ->
        one_active_one_class (fst (clicks indices (b, elements)))
                             (snd (clicks indices (b, elements))))
  /\ (forall (b : Block) (i : nat) (item : ParagraphEx.MenuItem),
        nth_error (ParagraphEx.renderSettings b) i = Some item ->
        let b' := fst (ParagraphEx.onActivate item b) in
        (exists a, nth_error alignment_values i = Some a
                   /\ alignment (_data b') = JStr a)
        /\ List.map ParagraphEx.isActive (ParagraphEx.renderSettings b')
           = alignment_marks (alignment (_data b'))
        /\ nth_error (List.map ParagraphEx.isActive (ParagraphEx.renderSettings b')) i
           = Some true
        /\ List.length (filter ParagraphEx.isActive (ParagraphEx.renderSettings b'))
           = 1%nat).
Proof.
  split; [|split].
  - intros b elements index tune N L b' elements'.
    destruct (click_marks index elements b N L) as (A & M1 & M2).
    fold b' in A, M1, M2. fold elements' in M1.
    rewrite <- A in M1, M2.
    assert (C1 := active_buttons_count (_CSS b') elements').
    assert (C2 := alignment_classes_count (_element b')).
    rewrite M1, alignment_marks_count in C1.
    rewrite M2, alignment_marks_count in C2.
    split; [exact A|]. split; [exact M1|]. split; [exact M2|]. split.
    + intros I. rewrite I in C1, C2. split; assumption.
    + intros I. rewrite I in C1, C2.
      split; now apply length_zero_iff_nil.
  - intros b elements indices NE V L D.
    destruct indices as [|i indices] using rev_ind; [congruence|].
    clear IHindices.
    apply Forall_app in V as [_ V]. apply Forall_inv in V.
    destruct (tune_at V) as (tune & N & T).
    destruct (clicks_frame indices elements b L) as [IL IC].
    rewrite clicks_snoc.
    destruct (click_marks i (snd (clicks indices (b, elements)))
                (fst (clicks indices (b, elements))) N IL) as (_ & M1 & M2).
    rewrite IC in M1, M2.
    assert (I : is_alignment
                  (if strict_eq (alignment (_data (fst (clicks indices (b, elements)))))
                                (JStr (Paragraph.name tune))
                   then defaultAlignment (config b)
                   else JStr (Paragraph.name tune)) = true).
    { destruct (strict_eq _ _); assumption. }
    split.
    + now rewrite active_buttons_count, M1, alignment_marks_count, I.
    + now rewrite alignment_classes_count, M2, alignment_marks_count, I.
  - intros b i item N b'.
    destruct (renderSettings_item b i N) as (tune & NT & OA & NA).
    assert (A : alignment (_data b') = JStr (ParagraphEx.value tune)).
    { unfold b'. rewrite OA. apply setAlignment_alignment. }
    assert (I : is_alignment (JStr (ParagraphEx.value tune)) = true).
    { unfold is_alignment. apply existsb_exists.
      exists (ParagraphEx.value tune). split.
      - eapply nth_error_In, NA.
      - apply strict_eq_refl. }
    split; [exists (ParagraphEx.value tune); now split|].
    split; [apply renderSettings_marks|]. split.
    + rewrite renderSettings_marks, A. unfold alignment_marks.
      rewrite nth_error_map, NA. simpl. now rewrite str_eqb_refl.
    + rewrite filter_marks, renderSettings_marks, alignment_marks_count, A.
      now rewrite I.
Qed.

End Activation.

(** C7 (the code departs from the claim): a [Paragraph] block aligned
    left, with no [defaultAlignment] configured, shows its "left" button
    active; a click on that button resets the alignment to [undefined] and
    leaves no button active and no modifier class on the root, where the
    claim has exactly one of each.  [_toggleTune] assigns
    [config.defaultAlignment] without the [|| DEFAULT_ALIGNMENT] that the
    constructor and [onPaste] of the same class apply. *)
Lemma C7_reclick_leaves_nothing_active :
  let R := example_runtime (Some []) in
  let b := Paragraph.constructor
             {| p_data := {| text := JStr (lit "x"); alignment := JStr (lit "left") |};
                p_config := empty_config; p_api := example_api;
                p_readOnly := JBool false |} in
  let panel := Paragraph.renderSettings b in
  let after := Paragraph.click 0 (snd panel) (fst panel) in
  button_marks (_CSS (fst panel)) (snd panel) = [true; false; false; false]
  /\ alignment (_data (fst after)) = JUndefined
  /\ button_marks (_CSS (fst after)) (snd after) = [false; false; false; false]
  /\ class_marks (_element (fst after)) = [false; false; false; false]
  /\ ~ one_active_one_class (fst after) (snd after).
Proof.
  intros R b panel after.
  assert (A : active_buttons (_CSS (fst after)) (snd after) = [])
    by (vm_compute; reflexivity).
  repeat split; try (vm_compute; reflexivity).
  intros [H _]. rewrite A in H. discriminate H.
Qed.

(** A [Paragraph] block aligned left; a click on the "right" button. *)
Lemma X12_activation_witness :
  let R := example_runtime (Some []) in
  let b := Paragraph.constructor
             {| p_data := {| text := JStr (lit "x"); alignment := JStr (lit "left") |};
                p_config := empty_config; p_api := example_api;
                p_readOnly := JBool false |} in
  let panel := Paragraph.renderSettings b in
  let after := Paragraph.click 2 (snd panel) (fst panel) in
  (nth_error Paragraph._tunesButtons 2
     = Some {| Paragraph.name := lit "right"; Paragraph.icon := IconAlignRight |}
   /\ List.length (snd panel) = 4%nat
   /\ is_alignment (alignment (_data (fst after))) = true)
  /\ alignment (_data (fst after)) = JStr (lit "right")
  /\ button_marks (_CSS (fst after)) (snd after) = [false; false; true; false]
  /\ class_marks (_element (fst after)) = [false; false; true; false]
  /\ one_active_one_class (fst after) (snd after).
Proof.
  intros R b panel after.
  destruct (@X12_activation_marks_stored_alignment R) as (H & _ & _).
  destruct (H (fst panel) (snd panel) 2%nat
              {| Paragraph.name := lit "right"; Paragraph.icon := IconAlignRight |}
              eq_refl eq_refl) as (A & M1 & M2 & O & _).
  split; [repeat split|]. split; [exact A|].
  split; [exact M1|]. split; [exact M2|].
  apply O. reflexivity.
Defined.

(** ** The spec's examples of validation *)

(** [validate({text: ""})] and [validate({text: "  "})] are [false] on a
    block configured without [preserveBlank], and [true] with
    [preserveBlank: true]; a text with a visible character passes. *)
Example validate_examples :
  let R := example_runtime (Some []) in
  let block pb :=
    ParagraphEx.constructor
      {| p_data := empty_data;
         p_config := {| placeholder := JUndefined; preserveBlank := pb;
                        defaultAlignment := JUndefined |};
         p_api := example_api; p_readOnly := JBool false |} in
  let saved (s : jsstring) := {| text := JStr s; alignment := JStr (lit "left") |} in
  ParagraphEx.validate (saved []) (block JUndefined) = Normal false
  /\ ParagraphEx.validate (saved (lit "  ")) (block JUndefined) = Normal false
  /\ ParagraphEx.validate (saved []) (block (JBool true)) = Normal true
  /\ ParagraphEx.validate (saved (lit "  ")) (block (JBool true)) = Normal true
  /\ ParagraphEx.validate (saved (lit " a ")) (block JUndefined) = Normal true
  /\ trim (lit "  a b  ") = lit "a b".
Proof.
  repeat split; vm_compute; reflexivity.
Qed.

(** * Further properties of the two classes *)

(** ** The element the constructor draws *)

Section Drawing.
Context {R : Runtime}.

(** Which modifier class the token [_CSS.alignment[v]] is: the class of [v]
    when [v] is one of the four values, and none of them otherwise (the
    token is then ["undefined"]). *)
Lemma modifier_of_value (v : jsval) :
  List.map (fun c => str_eqb c (to_jsstring (CSS_alignment v))) modifier_classes
  = alignment_marks v.
Proof.
  destruct v as [| |[|]|s]; try reflexivity.
  unfold CSS_alignment, alignment_marks, alignment_values. cbn [to_jsstring List.map strict_eq].
  rewrite !(str_eqb_sym _ s).
  destruct (str_eqb s (lit "left")) eqn:E1;
    [apply str_eqb_eq in E1; subst s; reflexivity|].
  destruct (str_eqb s (lit "center")) eqn:E2;
    [apply str_eqb_eq in E2; subst s; reflexivity|].
  destruct (str_eqb s (lit "right")) eqn:E3;
    [apply str_eqb_eq in E3; subst s; reflexivity|].
  destruct (str_eqb s (lit "justify")) eqn:E4;
    [apply str_eqb_eq in E4; subst s; reflexivity|].
  reflexivity.
Qed.

Lemma constructor_classList (p : Params) :
  classList (_element (ParagraphEx.constructor p))
  = token_add (to_jsstring (CSS_alignment (drawn_alignment p)))
      (token_add (styles_block (p_api p)) (token_add (lit "ce-paragraph") [])).
Proof.
  unfold ParagraphEx.constructor, ParagraphEx.set_data, ParagraphEx.drawView.
  simpl. destruct (truthy (p_readOnly p)); reflexivity.
Qed.

Lemma class_marks_contains (el : Element) :
  class_marks el = List.map (fun c => contains c (classList el)) modifier_classes.
Proof. unfold class_marks, modifier_classes. now rewrite map_map. Qed.

Lemma not_contained (t : jsstring) (cs : list jsstring) (c : jsstring) :
  contains t cs = false -> In c cs -> str_eqb c t = false.
Proof.
  intros H I. destruct (str_eqb c t) eqn:E; [|reflexivity].
  apply str_eqb_eq in E. subst c.
  assert (X : contains t cs = true).
  { apply existsb_exists. exists t. split; [exact I|apply str_eqb_refl]. }
  congruence.
Qed.

Lemma token_add_valid (t : jsstring) (cl : list jsstring) :
  valid_token t = true ->
  forallb valid_token cl = true ->
  forallb valid_token (token_add t cl) = true.
Proof.
  intros T C. unfold token_add.
  destruct (contains t cl); [exact C|].
  rewrite forallb_app, C. simpl. now rewrite T.
Qed.

(** The token [drawView] adds for the alignment is one [classList] accepts,
    on the keys [CSS_alignment] covers: a modifier class or ["undefined"]. *)
Lemma alignment_token_valid (v : jsval) :
  valid_token (to_jsstring (CSS_alignment v)) = true.
Proof.
  unfold CSS_alignment.
  destruct (str_eqb (to_jsstring v) (lit "left")); [reflexivity|].
  destruct (str_eqb (to_jsstring v) (lit "center")); [reflexivity|].
  destruct (str_eqb (to_jsstring v) (lit "right")); [reflexivity|].
  destruct (str_eqb (to_jsstring v) (lit "justify")); reflexivity.
Qed.

(** X1: where the constructor returns (the host's block style is a valid
    class token and [data.alignment || config.defaultAlignment || 'left'] is
    not a property name inherited from [Object.prototype], on which
    [classList.add] throws), the new block's root element carries the
    modifier class of that alignment and no other modifier class; when the
    value is none of the four it carries none (the third class is then the
    token ["undefined"]).  The host's block style must not itself be one of
    the four modifier classes. *)
Theorem X1_constructor_draws_defaulted_alignment (p : Params) :
  drawable p = true ->
  contains (styles_block (p_api p)) modifier_classes = false ->
  let b := ParagraphEx.constructor p in
  class_marks (_element b) = alignment_marks (drawn_alignment p)
  /\ List.length (alignment_classes (_element b))
     = (if is_alignment (drawn_alignment p) then 1%nat else 0%nat)
  /\ (is_alignment (drawn_alignment p) = false ->
      contains (lit "undefined") (classList (_element b)) = true)
  /\ forallb valid_token (classList (_element b)) = true.
Proof.
  intros D H b.
  assert (M : class_marks (_element b) = alignment_marks (drawn_alignment p)).
  { rewrite class_marks_contains. unfold b. rewrite constructor_classList.
    rewrite <- modifier_of_value.
    apply map_ext_in. intros c I.
    rewrite !contains_token_add. simpl contains. rewrite orb_false_r.
    rewrite (@not_contained _ _ _ H I).
    assert (W : str_eqb c (lit "ce-paragraph") = false).
    { destruct I as [<-|[<-|[<-|[<-|[]]]]]; reflexivity. }
    rewrite W. now rewrite !orb_false_r. }
  split; [exact M|]. split; [|split].
  - now rewrite alignment_classes_count, M, alignment_marks_count.
  - intros N. unfold b. rewrite constructor_classList, contains_token_add.
    assert (U : to_jsstring (CSS_alignment (drawn_alignment p)) = lit "undefined").
    { assert (Z := modifier_of_value (drawn_alignment p)).
      assert (C := alignment_marks_count (drawn_alignment p)).
      rewrite N in C.
      unfold CSS_alignment in *.
      destruct (str_eqb (to_jsstring (drawn_alignment p)) (lit "left")) eqn:E1;
        [rewrite <- Z in C; discriminate C|].
      destruct (str_eqb (to_jsstring (drawn_alignment p)) (lit "center")) eqn:E2;
        [rewrite <- Z in C; discriminate C|].
      destruct (str_eqb (to_jsstring (drawn_alignment p)) (lit "right")) eqn:E3;
        [rewrite <- Z in C; discriminate C|].
      destruct (str_eqb (to_jsstring (drawn_alignment p)) (lit "justify")) eqn:E4;
        [rewrite <- Z in C; discriminate C|].
      reflexivity. }
    now rewrite U, str_eqb_refl.
  - unfold b. rewrite constructor_classList.
    unfold drawable in D. apply andb_true_iff in D as [V _].
    apply token_add_valid; [apply alignment_token_valid|].
    apply token_add_valid; [exact V|].
    apply token_add_valid; reflexivity.
Qed.

End Drawing.

(** A block constructed from [{}] under [defaultAlignment: 'center']: the
    root carries the class of "center" and that one only. *)
Lemma X1_constructor_draws_witness :
  let R := example_runtime (Some []) in
  let p := {| p_data := empty_data;
              p_config := {| placeholder := JUndefined; preserveBlank := JUndefined;
                             defaultAlignment := JStr (lit "center") |};
              p_api := example_api; p_readOnly := JBool false |} in
  let b := ParagraphEx.constructor p in
  (drawable p = true
   /\ contains (styles_block (p_api p)) modifier_classes = false)
  /\ class_marks (_element b) = [false; true; false; false]
  /\ List.length (alignment_classes (_element b)) = 1%nat
  /\ forallb valid_token (classList (_element b)) = true.
Proof.
  intros R p b.
  destruct (@X1_constructor_draws_defaulted_alignment R p eq_refl eq_refl)
    as (M & C & _ & V).
  split; [split; reflexivity|]. split; [exact M|]. split; [exact C|exact V].
Defined.

(** ** Saved data: reconstruction and validation *)

Section Persistence.
Context {R : Runtime}.

Lemma trim_app_nil (s t : jsstring) :
  trim (s ++ t) = [] <-> trim s = [] /\ trim t = [].
Proof.
  rewrite !trim_nil, forallb_app. apply andb_true_iff.
Qed.

Lemma validate_false (s : jsstring) (a : jsval) (b : Block) :
  ParagraphEx.validate {| text := JStr s; alignment := a |} b = Normal false
  <-> trim s = [] /\ truthy (_preserveBlank b) = false.
Proof.
  rewrite validate_string. split.
  - intros [= H]. apply negb_false_iff, andb_true_iff in H as [H1 H2].
    split; [now apply str_eqb_eq|now apply negb_true_iff].
  - intros [H1 H2]. apply str_eqb_eq in H1. now rewrite H1, H2.
Qed.

Lemma constructor_preserves_truth (p : Params) :
  truthy (_preserveBlank (ParagraphEx.constructor p))
  = truthy (preserveBlank (p_config p)).
Proof.
  rewrite constructor_preserveBlank.
  destruct (preserveBlank (p_config p)); reflexivity.
Qed.

(** X2: what a block saves reconstructs it.  Where the constructor returns
    on the saved data (the host's block style is a valid class token, and the
    alignment drawn from the saved alignment and the configuration is not a
    property name inherited from [Object.prototype], on which
    [classList.add] throws), the block constructed from it saves the same
    alignment and the saved markup as the browser serialises it; so it saves
    the same data when the markup was in serialised form, as markup read
    from a live element is. *)
Theorem X2_saved_data_reconstructs
    (b : Block) (cfg : ParagraphConfig) (ap : Api) (ro : jsval) :
  let saved := snd (ParagraphEx.save (ParagraphEx.render b) b) in
  let p2 := {| p_data := saved; p_config := cfg; p_api := ap; p_readOnly := ro |} in
  drawable p2 = true ->
  let b2 := ParagraphEx.constructor p2 in
  let again := snd (ParagraphEx.save (ParagraphEx.render b2) b2) in
  again = {| text := JStr (html_serialize (innerHTML (_element b)));
             alignment := alignment (_data b) |}
  /\ (html_serialize (innerHTML (_element b)) = innerHTML (_element b) ->
      again = saved).
Proof.
  intros saved p2 D b2 again.
  assert (E : again = {| text := JStr (html_serialize (innerHTML (_element b)));
                         alignment := alignment (_data b) |}).
  { assert (Sv : saved = {| text := JStr (innerHTML (_element b));
                            alignment := alignment (_data b) |})
      by apply save_result.
    unfold again. rewrite save_result. unfold ParagraphEx.render, b2, p2.
    unfold ParagraphEx.constructor. cbn [p_data].
    rewrite set_data_alignment, Sv, set_data_string. reflexivity. }
  split; [exact E|].
  intros S. rewrite E, S. unfold saved. now rewrite save_result.
Qed.

(** X3: a block constructed from data whose text is missing, [null], [false]
    or empty saves the text [""], and [validate] on what it saves returns the
    truth value of [config.preserveBlank]: the block is rejected unless the
    option is set to a truthy value. *)
Theorem X3_block_without_text_is_blank (p : Params) :
  truthy (text (p_data p)) = false ->
  let b := ParagraphEx.constructor p in
  let saved := snd (ParagraphEx.save (ParagraphEx.render b) b) in
  text saved = JStr []
  /\ ParagraphEx.validate saved b = Normal (truthy (preserveBlank (p_config p))).
Proof.
  intros F b saved.
  assert (E : innerHTML (_element b) = []).
  { unfold b, ParagraphEx.constructor. now apply set_data_falsy_text. }
  assert (S : saved = {| text := JStr []; alignment := alignment (_data b) |}).
  { unfold saved. rewrite save_result. unfold ParagraphEx.render. now rewrite E. }
  split; [now rewrite S|].
  rewrite S, validate_string. unfold b at 1. rewrite constructor_preserves_truth.
  simpl. now destruct (truthy (preserveBlank (p_config p))).
Qed.

(** X4: the purpose of the key-up handler.  After a [Backspace] or [Delete]
    key-up on an element without text content, what the block saves is blank
    for [validate], whatever markup the browser had left in the element:
    [validate] returns the truth value of [_preserveBlank]. *)
Theorem X4_cleared_block_is_blank (e : KeyboardEvent) (b : Block) :
  code e = lit "Backspace" \/ code e = lit "Delete" ->
  textContent (_element b) = [] ->
  let b' := ParagraphEx.onKeyUp e b in
  ParagraphEx.validate (snd (ParagraphEx.save (ParagraphEx.render b') b')) b'
  = Normal (truthy (_preserveBlank b)).
Proof.
  intros K T b'.
  assert (E : b' = with_element (set_innerHTML [] (_element b)) b).
  { unfold b', ParagraphEx.onKeyUp. rewrite T. simpl.
    destruct K as [-> | ->]; reflexivity. }
  rewrite save_result. unfold ParagraphEx.render. rewrite E.
  cbn [_element with_element]. rewrite set_innerHTML_empty.
  rewrite validate_string. simpl.
  now destruct (truthy (_preserveBlank b)).
Qed.

(** X5: a merged block is blank only if both parts are.  When the browser
    keeps the joined markup as written, [validate] rejects what the block
    saves after [merge(data)] exactly when the block's markup and
    [data.text] (converted to a string) are both white space and
    [_preserveBlank] is false.  Data with no [text] is merged as the string
    ["undefined"], which is not blank. *)
Theorem X5_merged_block_blank_iff_both_blank (data : ParagraphData) (b b0 : Block) :
  let joined := innerHTML (_element b) ++ to_jsstring (text data) in
  html_serialize joined = joined ->
  let b' := ParagraphEx.merge data b in
  let saved := snd (ParagraphEx.save (ParagraphEx.render b') b') in
  (ParagraphEx.validate saved b0 = Normal false
   <-> trim (innerHTML (_element b)) = []
       /\ trim (to_jsstring (text data)) = []
       /\ truthy (_preserveBlank b0) = false)
  /\ (text data = JUndefined -> ParagraphEx.validate saved b0 = Normal true).
Proof.
  intros joined S b' saved.
  assert (E : saved = {| text := JStr joined; alignment := alignment (_data b) |}).
  { unfold saved. rewrite save_result. unfold ParagraphEx.render, b'.
    rewrite merge_unfold at 1. rewrite set_data_string. fold joined. rewrite S.
    reflexivity. }
  rewrite E. split.
  - rewrite validate_false. unfold joined. rewrite trim_app_nil. tauto.
  - intros U. rewrite validate_string.
    assert (N : str_eqb (trim joined) [] = false).
    { destruct (str_eqb (trim joined) []) eqn:X; [|reflexivity].
      apply str_eqb_eq in X. unfold joined in X.
      apply trim_app_nil in X as [_ X]. rewrite U in X. discriminate X. }
    now rewrite N.
Qed.

End Persistence.

(** A right-aligned block with inline markup, saved, constructed again from
    what it saved under another configuration, and saved again. *)
Lemma X2_saved_data_reconstructs_witness :
  let R := example_runtime (Some []) in
  let b := ParagraphEx.constructor
             {| p_data := {| text := JStr (lit "A<b>x</b>");
                             alignment := JStr (lit "right") |};
                p_config := empty_config; p_api := example_api;
                p_readOnly := JBool false |} in
  let cfg := {| placeholder := JStr (lit "Write"); preserveBlank := JBool true;
                defaultAlignment := JStr (lit "center") |} in
  let saved := snd (ParagraphEx.save (ParagraphEx.render b) b) in
  let p2 := {| p_data := saved; p_config := cfg; p_api := example_api;
               p_readOnly := JBool true |} in
  let b2 := ParagraphEx.constructor p2 in
  (drawable p2 = true
   /\ html_serialize (innerHTML (_element b)) = innerHTML (_element b))
  /\ saved = {| text := JStr (lit "A<b>x</b>"); alignment := JStr (lit "right") |}
  /\ snd (ParagraphEx.save (ParagraphEx.render b2) b2) = saved.
Proof.
  intros R b cfg saved p2 b2.
  destruct (@X2_saved_data_reconstructs R b cfg example_api (JBool true) eq_refl)
    as [_ H].
  split; [split; reflexivity|]. split; [reflexivity|].
  apply H. reflexivity.
Defined.

(** A block constructed from [{text: null, alignment: "left"}] with an empty
    configuration is rejected. *)
Lemma X3_block_without_text_witness :
  let R := example_runtime (Some []) in
  let p := {| p_data := {| text := JNull; alignment := JStr (lit "left") |};
              p_config := empty_config; p_api := example_api;
              p_readOnly := JBool false |} in
  let b := ParagraphEx.constructor p in
  let saved := snd (ParagraphEx.save (ParagraphEx.render b) b) in
  truthy (text (p_data p)) = false
  /\ text saved = JStr []
  /\ ParagraphEx.validate saved b = Normal false.
Proof.
  intros R p b saved.
  split; [reflexivity|].
  exact (@X3_block_without_text_is_blank R p eq_refl).
Defined.

(** The browser left [<br>] in an emptied paragraph: what the block would
    save passes validation; after the Delete key-up it no longer does. *)
Lemma X4_cleared_block_witness :
  let R := example_runtime (Some []) in
  let b0 := ParagraphEx.constructor
              {| p_data := {| text := JStr (lit "x"); alignment := JStr (lit "left") |};
                 p_config := empty_config; p_api := example_api;
                 p_readOnly := JBool false |} in
  let b := with_element (set_innerHTML (lit "<br>") (_element b0)) b0 in
  let e := {| code := lit "Delete" |} in
  let b' := ParagraphEx.onKeyUp e b in
  ((code e = lit "Backspace" \/ code e = lit "Delete")
   /\ textContent (_element b) = [])
  /\ ParagraphEx.validate (snd (ParagraphEx.save (ParagraphEx.render b) b)) b
     = Normal true
  /\ ParagraphEx.validate (snd (ParagraphEx.save (ParagraphEx.render b') b')) b'
     = Normal false.
Proof.
  intros R b0 b e b'.
  split; [split; [right; reflexivity|reflexivity]|].
  split; [reflexivity|].
  exact (@X4_cleared_block_is_blank R e b (or_intror eq_refl) eq_refl).
Defined.

(** A block holding two spaces: merged with [{text: " "}] it stays blank,
    merged with [{}] it saves ["  undefined"] and passes validation. *)
Lemma X5_merged_block_witness :
  let R := example_runtime (Some []) in
  let b := ParagraphEx.constructor
             {| p_data := {| text := JStr (lit "  "); alignment := JStr (lit "left") |};
                p_config := empty_config; p_api := example_api;
                p_readOnly := JBool false |} in
  let space := {| text := JStr (lit " "); alignment := JUndefined |} in
  let saved d :=
    snd (ParagraphEx.save (ParagraphEx.render (ParagraphEx.merge d b))
           (ParagraphEx.merge d b)) in
  (html_serialize (innerHTML (_element b) ++ to_jsstring (text space))
     = innerHTML (_element b) ++ to_jsstring (text space)
   /\ html_serialize (innerHTML (_element b) ++ to_jsstring (text empty_data))
     = innerHTML (_element b) ++ to_jsstring (text empty_data))
  /\ ParagraphEx.validate (saved space) b = Normal false
  /\ text (saved empty_data) = JStr (lit "  undefined")
  /\ ParagraphEx.validate (saved empty_data) b = Normal true.
Proof.
  intros R b space saved.
  destruct (@X5_merged_block_blank_iff_both_blank R space b b eq_refl) as [H1 _].
  destruct (@X5_merged_block_blank_iff_both_blank R empty_data b b eq_refl) as [_ H2].
  split; [split; reflexivity|]. split; [|split].
  - apply H1. repeat split.
  - reflexivity.
  - apply H2. reflexivity.
Defined.

(** ** What the operations leave alone *)

Section Frame.
Context {R : Runtime}.

Lemma perform_fixture (o : Operation) (b : Block) :
  element_fixture (_element (perform o b)) = element_fixture (_element b)
  /\ _preserveBlank (perform o b) = _preserveBlank b
  /\ api (perform o b) = api b.
Proof.
  destruct o as [data|event|a|data|e|]; cbn [perform].
  - repeat split.
  - repeat split.
  - unfold ParagraphEx.setAlignment. simpl.
    destruct window_name; repeat split.
  - repeat split.
  - unfold ParagraphEx.onKeyUp.
    destruct (negb _ && negb _); [repeat split|].
    destruct (str_eqb _ _); repeat split.
  - repeat split.
Qed.

Lemma perform_all_fixture (ops : list Operation) (b : Block) :
  element_fixture (_element (perform_all ops b)) = element_fixture (_element b)
  /\ _preserveBlank (perform_all ops b) = _preserveBlank b
  /\ config (perform_all ops b) = config b.
Proof.
  revert b. induction ops as [|o ops IH]; intros b; [repeat split|].
  cbn [perform_all fold_left]. fold (perform_all ops (perform o b)).
  destruct (IH (perform o b)) as (F & P & C).
  destruct (perform_fixture o b) as (F' & P' & _).
  rewrite F, P, C, F', P', perform_config. repeat split.
Qed.

Lemma constructor_fixture (p : Params) :
  element_fixture (_element (ParagraphEx.constructor p))
  = (negb (truthy (p_readOnly p)), negb (truthy (p_readOnly p)),
     Some (i18n_t (p_api p)
             (if truthy (placeholder (p_config p)) then placeholder (p_config p)
              else JStr []))).
Proof.
  unfold ParagraphEx.constructor, ParagraphEx.set_data, ParagraphEx.drawView,
    element_fixture.
  simpl. destruct (truthy (p_readOnly p)); reflexivity.
Qed.

(** X6: read-only mode is fixed at construction.  Whatever operations
    follow, the element is editable and listens to key-ups exactly when
    [readOnly] was falsy, its placeholder is the translation of
    [config.placeholder] (of the empty string when that is missing), and
    [validate] keeps using the [preserveBlank] of the configuration. *)
Theorem X6_editability_fixed_at_construction (p : Params) (ops : list Operation) :
  let b := perform_all ops (ParagraphEx.constructor p) in
  contentEditable (_element b) = negb (truthy (p_readOnly p))
  /\ keyup_listener (_element b) = negb (truthy (p_readOnly p))
  /\ dataset_placeholder (_element b)
     = Some (i18n_t (p_api p)
               (if truthy (placeholder (p_config p)) then placeholder (p_config p)
                else JStr []))
  /\ truthy (_preserveBlank b) = truthy (preserveBlank (p_config p))
  /\ config b = p_config p.
Proof.
  intros b.
  destruct (perform_all_fixture ops (ParagraphEx.constructor p)) as (F & P & C).
  fold b in F, P, C.
  rewrite constructor_fixture in F. unfold element_fixture in F.
  injection F as F1 F2 F3.
  repeat split; try assumption.
  - rewrite P. apply constructor_preserves_truth.
Qed.

Lemma perform_classList (o : Operation) (b : Block) :
  on_data_path o = true ->
  classList (_element (perform o b)) = classList (_element b).
Proof.
  destruct o as [data|event|a|data|e|]; cbn [perform on_data_path];
    intros H; try discriminate H; try reflexivity.
  unfold ParagraphEx.onKeyUp.
  destruct (negb _ && negb _); [reflexivity|].
  destruct (str_eqb _ _); reflexivity.
Qed.

(** X7: only [setAlignment] touches the root's classes.  After any sequence
    of merges, pastes, data assignments, key-ups and saves the root carries
    the classes it had; so a paste that brings its own [text-align] changes
    the alignment the block saves and leaves the root's modifier class as it
    was. *)
Theorem X7_data_path_keeps_root_classes (ops : list Operation) (b : Block) :
  forallb on_data_path ops = true ->
  classList (_element (perform_all ops b)) = classList (_element b)
  /\ class_marks (_element (perform_all ops b)) = class_marks (_element b)
  /\ (forall event : PasteEvent,
        pasted_textAlign event <> [] ->
        let b' := ParagraphEx.onPaste event (perform_all ops b) in
        alignment (snd (ParagraphEx.save (ParagraphEx.render b') b'))
        = JStr (pasted_textAlign event)
        /\ class_marks (_element b') = class_marks (_element b)).
Proof.
  intros F.
  assert (C : classList (_element (perform_all ops b)) = classList (_element b)).
  { revert b. induction ops as [|o ops IH]; intros b; [reflexivity|].
    cbn [forallb] in F. apply andb_true_iff in F as [Fo Fops].
    cbn [perform_all fold_left]. fold (perform_all ops (perform o b)).
    rewrite (IH Fops). now apply perform_classList. }
  assert (M : class_marks (_element (perform_all ops b)) = class_marks (_element b)).
  { now rewrite !class_marks_contains, C. }
  split; [exact C|]. split; [exact M|].
  intros event N b'. split.
  - rewrite save_alignment. unfold b', ParagraphEx.onPaste.
    rewrite set_data_alignment.
    change (JStr ParagraphEx.DEFAULT_ALIGNMENT) with (JStr (lit "left")).
    rewrite js_or_chain.
    destruct (str_eqb (pasted_textAlign event) []) eqn:E; [|reflexivity].
    now apply str_eqb_eq in E.
  - rewrite <- M. reflexivity.
Qed.

End Frame.

(** A left-aligned block, merged with "B" and then pasted over with a
    right-aligned paragraph: it saves "right", the root still carries the
    class of "left". *)
Lemma X7_data_path_witness :
  let R := example_runtime (Some []) in
  let b := ParagraphEx.constructor
             {| p_data := {| text := JStr (lit "A"); alignment := JStr (lit "left") |};
                p_config := empty_config; p_api := example_api;
                p_readOnly := JBool false |} in
  let ops := [ OpMerge {| text := JStr (lit "B"); alignment := JUndefined |}; OpSave ] in
  let event := {| pasted_innerHTML := lit "C"; pasted_textAlign := lit "right" |} in
  let b' := ParagraphEx.onPaste event (perform_all ops b) in
  (forallb on_data_path ops = true /\ pasted_textAlign event <> [])
  /\ alignment (snd (ParagraphEx.save (ParagraphEx.render b') b')) = JStr (lit "right")
  /\ class_marks (_element b') = [true; false; false; false].
Proof.
  intros R b ops event b'.
  assert (N : pasted_textAlign event <> []) by discriminate.
  destruct (@X7_data_path_keeps_root_classes R ops b eq_refl) as (_ & _ & H).
  destruct (H event N) as [A M].
  split; [split; [reflexivity|exact N]|]. split; [exact A|].
  fold b' in M. rewrite M. reflexivity.
Defined.

(** ** The settings of [ParagraphEx] *)

Section MenuSettings.
Context {R : Runtime}.

(** A value that is none of the four has no entry in [_CSS.alignment]: the
    lookup gives [undefined], hence the token ["undefined"]. *)
Lemma unknown_alignment_token (v : jsval) :
  is_alignment v = false ->
  to_jsstring (CSS_alignment v) = lit "undefined".
Proof.
  destruct v as [| |[|]|s]; try reflexivity.
  unfold is_alignment, alignment_values, CSS_alignment.
  cbn [existsb strict_eq to_jsstring]. rewrite orb_false_r.
  intros H.
  apply orb_false_iff in H as [H1 H].
  apply orb_false_iff in H as [H2 H].
  apply orb_false_iff in H as [H3 H4].
  now rewrite H1, H2, H3, H4.
Qed.

Lemma undefined_is_no_modifier (c : jsstring) :
  In c modifier_classes -> str_eqb c (lit "undefined") = false.
Proof. intros [<-|[<-|[<-|[<-|[]]]]]; reflexivity. Qed.

(** X8: [setAlignment] stores the alignment it is given and writes the
    element's markup back to it, but it does not move the root's modifier
    class to the new alignment: its [classList.toggle] is keyed by the free
    identifier [name].  Where that identifier does not resolve the call
    throws a [ReferenceError] after the data is stored and the classes stay
    as they were.  Where it resolves to a string (the browser's
    [window.name], empty by default) that is not a property name inherited
    from [Object.prototype], on which [classList.toggle] throws, the call
    returns; and when that string is none of the four values the root
    carries the same modifier classes as before. *)
Theorem X8_setAlignment_leaves_modifier_class (a : jsval) (b : Block) :
  let r := ParagraphEx.setAlignment a b in
  alignment (_data (fst r)) = a
  /\ innerHTML (_element (fst r)) = html_serialize (innerHTML (_element b))
  /\ (window_name = None ->
      snd r = Throw ReferenceError
      /\ classList (_element (fst r)) = classList (_element b))
  /\ (forall name : jsstring,
        window_name = Some name ->
        inherited_key (JStr name) = false ->
        snd r = Normal tt
        /\ valid_token (to_jsstring (CSS_alignment (JStr name))) = true
        /\ (is_alignment (JStr name) = false ->
            class_marks (_element (fst r)) = class_marks (_element b))).
Proof.
  intros r.
  split; [apply setAlignment_alignment|]. split; [|split].
  - assert (S : forall b0 : Block,
               innerHTML (_element
                 (ParagraphEx.set_data
                    {| text := JStr (innerHTML (_element b)); alignment := a |} b0))
               = html_serialize (innerHTML (_element b)))
      by (intros b0; apply set_data_string).
    unfold r, ParagraphEx.setAlignment. cbn [ParagraphEx.get_data].
    destruct window_name; cbn [fst]; [|apply S].
    cbn [_element with_element with_data innerHTML classList_toggle with_classList].
    apply S.
  - intros N. unfold r, ParagraphEx.setAlignment. rewrite N. split; reflexivity.
  - intros name N K. unfold r, ParagraphEx.setAlignment. rewrite N.
    split; [reflexivity|]. split; [apply alignment_token_valid|].
    intros U. rewrite !class_marks_contains.
    apply map_ext_in. intros c I.
    cbn [ParagraphEx.get_data fst _element with_element].
    rewrite contains_toggle, (@unknown_alignment_token _ U).
    rewrite (@undefined_is_no_modifier _ I). reflexivity.
Qed.

(** Each of the four values is the value of one of the tunes. *)
Lemma tune_of_value (n : jsstring) :
  In n alignment_values ->
  exists tune, In tune ParagraphEx._tunesButtons /\ ParagraphEx.value tune = n.
Proof.
  intros [<-|[<-|[<-|[<-|[]]]]]; eexists.
  - split; [left; reflexivity|reflexivity].
  - split; [right; left; reflexivity|reflexivity].
  - split; [right; right; left; reflexivity|reflexivity].
  - split; [right; right; right; left; reflexivity|reflexivity].
Qed.

(** X9: [currentAlignment] finds the tune of the stored alignment when that
    is one of the four values.  Otherwise it falls back to the string
    ['left'], which is no tune: it has no [value], so [renderSettings] marks
    no item active, not even "Align Left". *)
Theorem X9_currentAlignment_fallback_marks_nothing (b : Block) :
  (is_alignment (alignment (_data b)) = true ->
   exists tune,
     ParagraphEx.currentAlignment b = inl tune
     /\ In tune ParagraphEx._tunesButtons
     /\ JStr (ParagraphEx.value tune) = alignment (_data b))
  /\ (is_alignment (alignment (_data b)) = false ->
      ParagraphEx.currentAlignment b = inr (lit "left")
      /\ ParagraphEx.currentAlignment_value b = JUndefined
      /\ forallb (fun item => negb (ParagraphEx.isActive item))
           (ParagraphEx.renderSettings b) = true).
Proof.
  unfold ParagraphEx.currentAlignment_value, ParagraphEx.currentAlignment.
  destruct (find _ ParagraphEx._tunesButtons) as [tune|] eqn:F.
  - apply find_some in F as [I E]. apply strict_eq_eq in E.
    assert (A : is_alignment (alignment (_data b)) = true).
    { rewrite <- E. unfold is_alignment. apply existsb_exists.
      exists (ParagraphEx.value tune). split; [|apply strict_eq_refl].
      destruct I as [<-|[<-|[<-|[<-|[]]]]]; simpl; tauto. }
    split.
    + intros _. exists tune. repeat split; assumption.
    + intros N. congruence.
  - split.
    + intros A. unfold is_alignment in A.
      apply existsb_exists in A as (n & In_n & E). apply strict_eq_eq in E.
      destruct (@tune_of_value n In_n) as (tune & I & V).
      assert (X := find_none _ _ F tune I). cbn beta in X.
      rewrite V, E, strict_eq_refl in X.
      discriminate X.
    + intros _. split; [reflexivity|]. split; [reflexivity|].
      apply forallb_forall. intros item I.
      unfold ParagraphEx.renderSettings in I.
      apply in_map_iff in I as (tune & <- & _).
      cbn [ParagraphEx.isActive].
      unfold ParagraphEx.currentAlignment_value, ParagraphEx.currentAlignment.
      now rewrite F.
Qed.

End MenuSettings.

(** A left-aligned block set to "right": in a browser whose [window.name] is
    empty the call returns, the block saves "right" and the root keeps the
    class of "left"; where [name] does not resolve the call throws and the
    alignment is stored all the same. *)
Lemma X8_setAlignment_witness :
  let p := {| p_data := {| text := JStr (lit "A"); alignment := JStr (lit "left") |};
              p_config := empty_config; p_api := example_api;
              p_readOnly := JBool false |} in
  let browser := example_runtime (Some []) in
  let bare := example_runtime None in
  let r := @ParagraphEx.setAlignment browser (JStr (lit "right"))
             (@ParagraphEx.constructor browser p) in
  let r' := @ParagraphEx.setAlignment bare (JStr (lit "right"))
              (@ParagraphEx.constructor bare p) in
  (@window_name browser = Some [] /\ inherited_key (JStr []) = false
   /\ is_alignment (JStr []) = false /\ @window_name bare = None)
  /\ snd r = Normal tt
  /\ alignment (_data (fst r)) = JStr (lit "right")
  /\ class_marks (_element (fst r)) = [true; false; false; false]
  /\ snd r' = Throw ReferenceError
  /\ alignment (_data (fst r')) = JStr (lit "right").
Proof.
  intros p browser bare r r'.
  destruct (@X8_setAlignment_leaves_modifier_class browser (JStr (lit "right"))
              (@ParagraphEx.constructor browser p)) as (A & _ & _ & H).
  destruct (H [] eq_refl eq_refl) as (N & _ & M).
  destruct (@X8_setAlignment_leaves_modifier_class bare (JStr (lit "right"))
              (@ParagraphEx.constructor bare p)) as (A' & _ & H' & _).
  destruct (H' eq_refl) as [T _].
  split; [repeat split|].
  split; [exact N|]. split; [exact A|]. split; [|split; [exact T|exact A']].
  fold r in M. rewrite (M eq_refl). reflexivity.
Defined.

(** A block constructed from [{}] stores no alignment: the fallback applies
    and no item of its menu is active.  Constructed left-aligned, the tune
    found is "Align Left". *)
Lemma X9_currentAlignment_witness :
  let R := example_runtime (Some []) in
  let mk d := ParagraphEx.constructor
                {| p_data := d; p_config := empty_config; p_api := example_api;
                   p_readOnly := JBool false |} in
  let b := mk empty_data in
  let b' := mk {| text := JStr (lit "A"); alignment := JStr (lit "left") |} in
  (is_alignment (alignment (_data b)) = false
   /\ is_alignment (alignment (_data b')) = true)
  /\ ParagraphEx.currentAlignment b = inr (lit "left")
  /\ List.map ParagraphEx.isActive (ParagraphEx.renderSettings b)
     = [false; false; false; false]
  /\ (exists tune, ParagraphEx.currentAlignment b' = inl tune
                   /\ ParagraphEx.title tune = lit "Align Left").
Proof.
  intros R mk b b'.
  destruct (@X9_currentAlignment_fallback_marks_nothing R b) as [_ H].
  destruct (H eq_refl) as (C & _ & _).
  destruct (@X9_currentAlignment_fallback_marks_nothing R b') as [H' _].
  destruct (H' eq_refl) as (tune & C' & _ & _).
  split; [split; reflexivity|]. split; [exact C|]. split; [reflexivity|].
  exists tune. split; [exact C'|].
  vm_compute in C'. injection C' as <-. reflexivity.
Defined.

(** ** The settings panel of [Paragraph] *)

Section PanelSettings.
Context {R : Runtime}.

(** [renderSettings], unrolled over the four tunes. *)
Lemma renderSettings_four (b : Block) :
  let r := Paragraph.renderSettings b in
  let shown := js_or (alignment (_data b)) (defaultAlignment (config b)) in
  let button (n : string) (icon : jsstring) :=
    classList_toggle (css_settingsButtonActive (_CSS b))
      (strict_eq (JStr (lit n)) shown)
      (set_innerHTML icon (classList_add [lit "cdx-settings-button"] createElement)) in
  snd r = [ button "left"%string IconAlignLeft;
            button "center"%string IconAlignCenter;
            button "right"%string IconAlignRight;
            button "justify"%string IconAlignJustify ]
  /\ alignment (_data (fst r)) = alignment (_data b)
  /\ _element (fst r) = _element b
  /\ config (fst r) = config b
  /\ _CSS (fst r) = _CSS b.
Proof.
  repeat split.
Qed.

(** X10: the panel [renderSettings] builds has one button per tune, each
    holding its icon, and marks active the button of
    [data.alignment || config.defaultAlignment]: the stored alignment, or
    the configured default while none is stored; no button when that value
    is none of the four.  Rendering changes neither the stored alignment nor
    the element. *)
Theorem X10_panel_shows_stored_or_default_alignment (b : Block) :
  let r := Paragraph.renderSettings b in
  let shown := js_or (alignment (_data b)) (defaultAlignment (config b)) in
  List.length (snd r) = 4%nat
  /\ button_marks (_CSS (fst r)) (snd r) = alignment_marks shown
  /\ List.length (active_buttons (_CSS (fst r)) (snd r))
     = (if is_alignment shown then 1%nat else 0%nat)
  /\ List.map innerHTML (snd r)
     = List.map (fun tune => html_serialize (Paragraph.icon tune)) Paragraph._tunesButtons
  /\ alignment (_data (fst r)) = alignment (_data b)
  /\ _element (fst r) = _element b.
Proof.
  intros r shown.
  destruct (renderSettings_four b) as (E & A & El & _ & C).
  fold r in E, A, El, C. fold shown in E.
  assert (M : button_marks (_CSS (fst r)) (snd r) = alignment_marks shown).
  { rewrite C, E. unfold button_marks, alignment_marks, alignment_values.
    cbn [List.map]. now rewrite !active_after_toggle. }
  split; [now rewrite E|]. split; [exact M|]. split; [|split; [|split]].
  - now rewrite active_buttons_count, M, alignment_marks_count.
  - rewrite E. reflexivity.
  - exact A.
  - exact El.
Qed.

Lemma toggleTune_element (tune : jsstring) (b : Block) :
  _element (Paragraph._toggleTune tune b) = _element b.
Proof.
  unfold Paragraph._toggleTune. simpl.
  destruct (strict_eq (alignment (_data b)) (JStr tune)); reflexivity.
Qed.

(** The listener's loop toggles classes only: the root's markup, text
    content and fixture are as before, for any number of buttons. *)
Lemma refresh_keeps_content (tunes : list Paragraph.Tune)
    (elements : list Element) (b : Block) :
  let b' := fst (Paragraph.refresh elements tunes b) in
  innerHTML (_element b') = innerHTML (_element b)
  /\ textContent (_element b') = textContent (_element b)
  /\ element_fixture (_element b') = element_fixture (_element b)
  /\ _preserveBlank b' = _preserveBlank b.
Proof.
  revert tunes b. induction elements as [|el elements IH]; intros tunes b.
  - repeat split.
  - destruct tunes as [|tune tunes]; [repeat split|].
    cbn [Paragraph.refresh Paragraph.get_data].
    match goal with
    | |- context [Paragraph.refresh elements tunes ?b3] =>
        specialize (IH tunes b3);
        destruct (Paragraph.refresh elements tunes b3) as [b4 rest]
    end.
    cbn [fst] in *. destruct IH as (I & T & F & P).
    rewrite I, T, F, P. repeat split.
Qed.

Lemma click_keeps_content (index : nat) (elements : list Element) (b : Block) :
  let b' := fst (Paragraph.click index elements b) in
  innerHTML (_element b') = innerHTML (_element b)
  /\ textContent (_element b') = textContent (_element b)
  /\ element_fixture (_element b') = element_fixture (_element b)
  /\ _preserveBlank b' = _preserveBlank b.
Proof.
  unfold Paragraph.click.
  destruct (nth_error Paragraph._tunesButtons index) as [tune|]; [|repeat split].
  destruct (refresh_keeps_content Paragraph._tunesButtons elements
              (Paragraph._toggleTune (Paragraph.name tune) b)) as (I & T & F & P).
  cbn zeta. rewrite I, T, F, P, toggleTune_element.
  repeat split.
  unfold Paragraph._toggleTune. simpl.
  destruct (strict_eq (alignment (_data b)) (JStr (Paragraph.name tune))); reflexivity.
Qed.

(** X11: the alignment buttons of [Paragraph] never touch the text.  After
    any run of clicks, on a panel of any size, the block saves the text it
    would have saved before, [validate] judges it as before, and the element
    is as editable as before. *)
Theorem X11_clicks_keep_text
    (indices : list nat) (elements : list Element) (b : Block) :
  let b' := fst (clicks indices (b, elements)) in
  text (snd (Paragraph.save (Paragraph.render b') b'))
    = text (snd (Paragraph.save (Paragraph.render b) b))
  /\ Paragraph.validate (snd (Paragraph.save (Paragraph.render b') b')) b'
     = Paragraph.validate (snd (Paragraph.save (Paragraph.render b) b)) b
  /\ textContent (_element b') = textContent (_element b)
  /\ element_fixture (_element b') = element_fixture (_element b).
Proof.
  intros b'.
  assert (H : innerHTML (_element b') = innerHTML (_element b)
              /\ textContent (_element b') = textContent (_element b)
              /\ element_fixture (_element b') = element_fixture (_element b)
              /\ _preserveBlank b' = _preserveBlank b).
  { unfold b'. clear b'.
    induction indices as [|i indices IH] using rev_ind; [repeat split|].
    rewrite clicks_snoc.
    destruct (click_keeps_content i (snd (clicks indices (b, elements)))
                (fst (clicks indices (b, elements)))) as (I & T & F & P).
    destruct IH as (I' & T' & F' & P').
    cbn zeta in I, T, F, P.
    rewrite I, T, F, P. repeat split; assumption. }
  destruct H as (I & T & F & P).
  assert (S : text (snd (Paragraph.save (Paragraph.render b') b'))
              = text (snd (Paragraph.save (Paragraph.render b) b))).
  { rewrite !old_save_result. unfold Paragraph.render. cbn [text]. now rewrite I. }
  split; [exact S|]. split; [|split; assumption].
  rewrite !old_save_result. unfold Paragraph.render, Paragraph.validate.
  cbn [text]. now rewrite I, P.
Qed.

End PanelSettings.
